(** * The VoidReader test-document generator

    A shallow embedding of [scripts/generate_test_doc.py]: the script builds
    a list of text blocks (a fixed template followed by procedurally built
    sections) until a running line tally reaches 50000, joins them with
    newlines, appends a statistics footer and writes the text out.

    Python integers are [Z], Python [str] values are [string] (every literal
    of the script is ASCII, so one [ascii] per code point is enough), Python
    lists are [list] with [append] adding at the end.  The pseudo-random
    generator is a stream of raw naturals read at a moving position. *)

From Stdlib Require Import ZArith String Ascii List Lia Bool.
From Stdlib Require Import DecimalString DecimalPos DecimalZ.
Import ListNotations.

Open Scope Z_scope.
Open Scope list_scope.
Open Scope string_scope.

(** ** Python built-ins used by the script *)

Module Py.

(** The line separator ['\n'] and the double-quote character. *)
Definition nl : ascii := "010"%char.
Definition nls : string := String nl EmptyString.
Definition dq : string := String "034"%char EmptyString.

(** [len] of a list and of a string. *)
Definition len {A : Type} (l : list A) : Z := Z.of_nat (List.length l).
Definition len_str (s : string) : Z := Z.of_nat (String.length s).

(** [s.split('\n')]: cut at every newline; an empty piece is kept, so the
    result has one more element than [s] has newlines. *)
Fixpoint split_nl (s : string) : list string :=
  match s with
  | EmptyString => [EmptyString]
  | String c r =>
      if Ascii.eqb c nl then EmptyString :: split_nl r
      else match split_nl r with
           | h :: t => String c h :: t
           | [] => [String c EmptyString]
           end
  end.

(** [sep.join(l)]. *)
Fixpoint join (sep : string) (l : list string) : string :=
  match l with
  | [] => EmptyString
  | [x] => x
  | x :: r => x ++ sep ++ join sep r
  end.

(** [str(n)], also what an f-string does with an integer field. *)
Definition str (n : Z) : string := NilZero.string_of_int (Z.to_int n).

(** [s.encode('utf-8')], as the list of byte values.  A code point below
    0x80 is one byte, below 0x800 two, below 0x10000 three, else four. *)
Definition utf8_encode_cp (c : N) : list N :=
  if (c <? 128)%N then [c]
  else if (c <? 2048)%N then
    [N.lor 192 (N.shiftr c 6); N.lor 128 (N.land c 63)]
  else if (c <? 65536)%N then
    [N.lor 224 (N.shiftr c 12); N.lor 128 (N.land (N.shiftr c 6) 63);
     N.lor 128 (N.land c 63)]
  else
    [N.lor 240 (N.shiftr c 18); N.lor 128 (N.land (N.shiftr c 12) 63);
     N.lor 128 (N.land (N.shiftr c 6) 63); N.lor 128 (N.land c 63)].

Fixpoint utf8_encode (s : string) : list N :=
  match s with
  | EmptyString => []
  | String c r => (utf8_encode_cp (N_of_ascii c) ++ utf8_encode r)%list
  end.

End Py.

Import Py.

(** ** The script's constants *)

Definition template : string :=
  ("# Large Test Document - 50,000 Lines

This document is generated for performance testing. It contains varied markdown content:
headings, code blocks, tables, lists, blockquotes, and inline formatting.

---

## Section 1: Introduction

Lorem ipsum dolor sit amet, consectetur adipiscing elit. Sed do eiusmod tempor incididunt ut labore et dolore magna aliqua. Ut enim ad minim veniam, quis nostrud exercitation ullamco laboris.

### Key Features

- Feature one with **bold text** and *italic text*
- Feature two with `inline code` examples
- Feature three with [links](https://example.com)
- Feature four with ~~strikethrough~~ text

### Code Example

```swift
struct PerformanceTest {
    let iterations: Int
    var results: [Double] = []

    mutating func run() {
        for i in 0..<iterations {
            let start = CFAbsoluteTimeGetCurrent()
            // Simulate work
            let _ = (0..<1000).reduce(0, +)
            let elapsed = CFAbsoluteTimeGetCurrent() - start
            results.append(elapsed)
        }
    }
}
```

### Data Table

| Metric | Value | Unit | Notes |
|--------|-------|------|-------|
| Scroll FPS | 60 | fps | Target |
| Render Time | 500 | ms | Max allowed |
| Memory | 100 | MB | View layer |

> This is a blockquote that spans multiple lines.
> It contains important information about the test.
> Remember to measure before and after optimization.

---

## Section 2: Content Block

Paragraph with various formatting: **bold**, *italic*, `code`, and [link](https://test.com).

- [ ] Task item unchecked
- [x] Task item checked
- [ ] Another unchecked task

1. Ordered item one
2. Ordered item two
3. Ordered item three
   - Nested unordered
   - Another nested

```python
def fibonacci(n):
    if n <= 1:
        return n
    return fibonacci(n-1) + fibonacci(n-2)

# Calculate first 10 fibonacci numbers
for i in range(10):
    print(f" ++ dq ++ "F({i}) = {fibonacci(i)}" ++ dq ++ ")
```

### Subsection 2.1

More content here with inline `code snippets` and **important notes**.

| Column A | Column B | Column C |
|----------|----------|----------|
| Data 1   | Data 2   | Data 3   |
| Data 4   | Data 5   | Data 6   |

---

").

Definition code_samples : list string :=
  [ ("```javascript
function processData(items) {
    return items
        .filter(item => item.active)
        .map(item => ({
            id: item.id,
            name: item.name.toUpperCase(),
            value: item.value * 2
        }))
        .sort((a, b) => a.value - b.value);
}
```");
    ("```rust
fn main() {
    let numbers: Vec<i32> = (1..=100).collect();
    let sum: i32 = numbers.iter().sum();
    println!(" ++ dq ++ "Sum: {}" ++ dq ++ ", sum);
}
```");
    ("```go
package main

import " ++ dq ++ "fmt" ++ dq ++ "

func main() {
    ch := make(chan int, 10)
    go func() {
        for i := 0; i < 10; i++ {
            ch <- i * i
        }
        close(ch)
    }()
    for v := range ch {
        fmt.Println(v)
    }
}
```");
    ("```python
class DataProcessor:
    def __init__(self, data):
        self.data = data

    def transform(self):
        return [x ** 2 for x in self.data if x > 0]

    def aggregate(self):
        return sum(self.transform())
```") ].

Definition table_samples : list string :=
  [ ("| ID | Name | Status | Priority |
|---:|:-----|:------:|----------|
| 1 | Alpha | Active | High |
| 2 | Beta | Pending | Medium |
| 3 | Gamma | Done | Low |
| 4 | Delta | Active | High |");
    ("| Metric | Q1 | Q2 | Q3 | Q4 |
|--------|----|----|----|----|
| Revenue | 100 | 120 | 140 | 160 |
| Costs | 80 | 85 | 90 | 95 |
| Profit | 20 | 35 | 50 | 65 |") ].

(** The loop bound of [while line_count < 50000]. *)
Definition target_line_count : Z := 50000.

(** ** Building one section

    The loop body mutates two things: the list [section] (by [append]) and
    the state of the random generator.  Both are threaded through a state
    monad. *)

Record build_state := mk_build_state {
  rng_pos : nat;
  section : list string
}.

Definition Build (A : Type) : Type := build_state -> A * build_state.

Definition ret {A : Type} (a : A) : Build A := fun s => (a, s).

Definition bind {A B : Type} (m : Build A) (k : A -> Build B) : Build B :=
  fun s => let (a, s') := m s in k a s'.

Notation "x <- m ;; k" := (bind m (fun x => k))
  (at level 61, m at next level, right associativity).
Notation "m ;; k" := (bind m (fun _ => k))
  (at level 61, right associativity).

(** [section.append(x)]. *)
Definition append (x : string) : Build unit :=
  fun s => (tt, mk_build_state (rng_pos s) (section s ++ [x])%list).

Section Generator.

(** The raw output of the random generator, one natural per draw. *)
Variable entropy : nat -> nat.

(** [random.randint(a, b)]: some integer of [a..b], fixed by the next raw
    draw. *)
Definition randint (a b : Z) : Build Z :=
  fun s => (a + Z.of_nat (entropy (rng_pos s)) mod (b - a + 1),
            mk_build_state (S (rng_pos s)) (section s)).

(** [random.choice(seq)]: some element of [seq], fixed by the next raw
    draw.  The script only calls it on its two non-empty sample lists. *)
Definition choice (seq : list string) : Build string :=
  fun s => (nth (entropy (rng_pos s) mod List.length seq)%nat seq EmptyString,
            mk_build_state (S (rng_pos s)) (section s)).

(** [for i in range(n): body i]. *)
Fixpoint for_range_from (i : Z) (n : nat) (body : Z -> Build unit)
  : Build unit :=
  match n with
  | O => ret tt
  | S n' => body i ;; for_range_from (i + 1) n' body
  end.

Definition for_range (n : Z) (body : Z -> Build unit) : Build unit :=
  for_range_from 0 (Z.to_nat n) body.

(** [if c: m]. *)
Definition when (c : bool) (m : Build unit) : Build unit :=
  if c then m else ret tt.

(** Lines 170 to 221 of the script: the body of the loop up to the last
    [section.append]. *)
Definition build_section (section_num : Z) : Build unit :=
  append ("## Section " ++ str section_num ++ ": Generated Content Block") ;;
  append EmptyString ;;
  (* Paragraphs with formatting *)
  paragraphs <- randint 2 4 ;;
  for_range paragraphs (fun p =>
    append ("Paragraph " ++ str (p + 1) ++ " with **bold text**, *italic*, `inline code`, and [links](https://example.com/" ++ str section_num ++ "). This is filler content to test rendering performance with realistic markdown documents.") ;;
    append EmptyString) ;;
  (* Lists *)
  append "### List Items" ;;
  append EmptyString ;;
  items <- randint 3 6 ;;
  for_range items (fun i =>
    append ("- Item " ++ str (i + 1) ++ " with some content and `code`")) ;;
  append EmptyString ;;
  (* Code block *)
  when (section_num mod 3 =? 0)%Z (
    append "### Code Example" ;;
    append EmptyString ;;
    sample <- choice code_samples ;;
    append sample ;;
    append EmptyString) ;;
  (* Table *)
  when (section_num mod 4 =? 0)%Z (
    append "### Data Table" ;;
    append EmptyString ;;
    sample <- choice table_samples ;;
    append sample ;;
    append EmptyString) ;;
  (* Blockquote *)
  when (section_num mod 5 =? 0)%Z (
    append "> This is a blockquote with important information." ;;
    append "> It spans multiple lines for testing purposes." ;;
    append EmptyString) ;;
  (* Task list *)
  when (section_num mod 6 =? 0)%Z (
    append "### Tasks" ;;
    append EmptyString ;;
    append "- [ ] Unchecked task item" ;;
    append "- [x] Checked task item" ;;
    append "- [ ] Another unchecked task" ;;
    append EmptyString) ;;
  (* Headings *)
  append ("#### Subsection " ++ str section_num ++ ".1") ;;
  append EmptyString ;;
  append ("Content for subsection " ++ str section_num ++ ".1 with more **formatting** and details.") ;;
  append EmptyString ;;
  append "---" ;;
  append EmptyString.

(** ** The generation loop *)

Record loop_state := mk_loop_state {
  sections : list string;
  section_num : Z;
  line_count : Z;
  rng : nat
}.

(** Lines 165 to 167. *)
Definition init_state : loop_state :=
  mk_loop_state [template] 3 (len (split_nl template)) 0.

(** One pass through the loop body, lines 170 to 226. *)
Definition loop_body (s : loop_state) : loop_state :=
  let (_, b) := build_section (section_num s) (mk_build_state (rng s) []) in
  let section_text := join nls (section b) in
  mk_loop_state (sections s ++ [section_text])%list
                (section_num s + 1)
                (line_count s + len (section b))
                (rng_pos b).

(** [while line_count < target: body].  The loop of the script has no
    bound on its number of passes; [fuel] is one, and [None] means the
    bound was hit before the test failed. *)
Fixpoint while (target : Z) (fuel : nat) (s : loop_state)
  : option loop_state :=
  if (line_count s <? target)%Z then
    match fuel with
    | O => None
    | S fuel' => while target fuel' (loop_body s)
    end
  else Some s.

(** ** The footer and the report *)

(** The f-string of lines 232 to 245. *)
Definition footer (actual_lines generated : Z) : string :=
  "

---

## Document Statistics

- **Total Lines**: " ++ str actual_lines ++ "
- **Generated Sections**: " ++ str generated ++ "
- **Purpose**: Performance testing for VoidReader

---

*End of test document*
".

(** The module-level variables a run ends with, besides those of the loop:
    the text written to [TestDocuments/large-test-50k.md], the line count
    taken before the footer is appended, and the two integers of the console
    report.  The megabyte figure of the second printed line is [file_size]
    pushed through float division and formatting; it is left out. *)
Record report := mk_report {
  full_doc : string;
  actual_lines : Z;
  final_lines : Z;
  file_size : Z
}.

(** Line 228: the text before the footer. *)
Definition joined_doc (s : loop_state) : string := join nls (sections s).

(** Lines 228 to 252, from the state the loop ends in. *)
Definition finish (s : loop_state) : report :=
  let full_doc := joined_doc s in
  let actual_lines := len (split_nl full_doc) in
  let full_doc := full_doc ++ footer actual_lines (section_num s - 1) in
  mk_report full_doc actual_lines (len (split_nl full_doc)) (len_str full_doc).

(** The script as a function of the loop bound; the script itself is
    [generate target_line_count]. *)
Definition generate_with (fuel : nat) (target : Z) : option report :=
  option_map finish (while target fuel init_state).

Definition generate (target : Z) : option report :=
  generate_with (Z.to_nat target) target.

Definition main : option report := generate target_line_count.

End Generator.

Arguments rng_pos : clear implicits.
Arguments section : clear implicits.

(** The state after [k] passes of the loop body, whatever the bound. *)
Definition run (entropy : nat -> nat) (k : nat) : loop_state :=
  Nat.iter k (loop_body entropy) init_state.

(** The list the loop body builds for section [n] when the generator is at
    position [r]. *)
Definition built_section (entropy : nat -> nat) (n : Z) (r : nat) : list string :=
  section (snd (build_section entropy n (mk_build_state r []))).

(** The section list built by the pass that starts in state [s]. *)
Definition pass_section (entropy : nat -> nat) (s : loop_state) : list string :=
  built_section entropy (section_num s) (rng s).

(** The blocks after the template. *)
Definition generated (s : loop_state) : list string := tl (sections s).

(** ** Derived notions used by the statements *)

(** The number of newline characters of a string. *)
Fixpoint newlines (s : string) : nat :=
  match s with
  | EmptyString => O
  | String c r => if Ascii.eqb c nl then S (newlines r) else newlines r
  end.

(** The line count the script takes: [len(s.split('\n'))]. *)
Definition lines (s : string) : Z := len (split_nl s).

Fixpoint sum_lines (l : list string) : Z :=
  match l with
  | [] => 0
  | x :: r => lines x + sum_lines r
  end.

(** The integers [i, i+1, ..., i+n-1]: the values a [for] loop over
    [range] goes through. *)
Fixpoint zrange (i : Z) (n : nat) : list Z :=
  match n with
  | O => []
  | S n' => i :: zrange (i + 1) n'
  end.

(** The text of a string is plain ASCII. *)
Definition is_ascii (c : ascii) : bool := (N_of_ascii c <? 128)%N.

Fixpoint ascii_only (s : string) : bool :=
  match s with
  | EmptyString => true
  | String c r => is_ascii c && ascii_only r
  end.

(** *** The section of one pass as a list expression

    [section_of n r] is meant to be the list that [build_section n] leaves
    when it starts from the empty list with the generator at position [r];
    [build_section_eq] below proves that it is. *)

Section Fragments.

Variable entropy : nat -> nat.

Definition randint_val (a b : Z) (r : nat) : Z :=
  a + Z.of_nat (entropy r) mod (b - a + 1).

Definition choice_val (seq : list string) (r : nat) : string :=
  nth (entropy r mod List.length seq)%nat seq EmptyString.

Definition heading (n : Z) : string :=
  "## Section " ++ str n ++ ": Generated Content Block".

Definition paragraph (n p : Z) : string :=
  "Paragraph " ++ str (p + 1) ++ " with **bold text**, *italic*, `inline code`, and [links](https://example.com/" ++ str n ++ "). This is filler content to test rendering performance with realistic markdown documents.".

Definition list_item (i : Z) : string :=
  "- Item " ++ str (i + 1) ++ " with some content and `code`".

Definition paragraphs_part (n : Z) (r : nat) : list string :=
  flat_map (fun p => [paragraph n p; EmptyString])
           (zrange 0 (Z.to_nat (randint_val 2 4 r))).

Definition items_part (r : nat) : list string :=
  map list_item (zrange 0 (Z.to_nat (randint_val 3 6 r))).

Definition code_part (n : Z) (r : nat) : list string :=
  if (n mod 3 =? 0)%Z
  then ["### Code Example"; EmptyString; choice_val code_samples r; EmptyString]
  else [].

Definition table_part (n : Z) (r : nat) : list string :=
  if (n mod 4 =? 0)%Z
  then ["### Data Table"; EmptyString; choice_val table_samples r; EmptyString]
  else [].

Definition quote_part (n : Z) : list string :=
  if (n mod 5 =? 0)%Z
  then ["> This is a blockquote with important information.";
        "> It spans multiple lines for testing purposes."; EmptyString]
  else [].

Definition task_part (n : Z) : list string :=
  if (n mod 6 =? 0)%Z
  then ["### Tasks"; EmptyString; "- [ ] Unchecked task item";
        "- [x] Checked task item"; "- [ ] Another unchecked task"; EmptyString]
  else [].

Definition closing_part (n : Z) : list string :=
  ["#### Subsection " ++ str n ++ ".1"; EmptyString;
   "Content for subsection " ++ str n ++ ".1 with more **formatting** and details.";
   EmptyString; "---"; EmptyString].

(** The number of draws a pass makes before and in the code block. *)
Definition code_draws (n : Z) : nat := if (n mod 3 =? 0)%Z then 1%nat else 0%nat.
Definition table_draws (n : Z) : nat := if (n mod 4 =? 0)%Z then 1%nat else 0%nat.

Definition section_of (n : Z) (r : nat) : list string :=
  ([heading n; EmptyString]
   ++ paragraphs_part n r
   ++ ["### List Items"; EmptyString]
   ++ items_part (S r)
   ++ [EmptyString]
   ++ code_part n (S (S r))
   ++ table_part n (code_draws n + S (S r))
   ++ quote_part n
   ++ task_part n
   ++ closing_part n)%list.

Definition draws_used (n : Z) : nat := (table_draws n + (code_draws n + 2))%nat.

End Fragments.

(** *** Lines the tally does not see

    A code or table sample is one list element but several lines.
    [extra_lines n r] is the number of newlines inside the samples that the
    pass for section [n], started with the generator at [r], embeds. *)
Definition extra_lines (entropy : nat -> nat) (n : Z) (r : nat) : Z :=
  (if (n mod 3 =? 0)%Z
   then Z.of_nat (newlines (choice_val entropy code_samples (S (S r))))
   else 0)
  + (if (n mod 4 =? 0)%Z
     then Z.of_nat (newlines (choice_val entropy table_samples
                                         (code_draws n + S (S r))))
     else 0).

(** The same, added up over the first [k] passes of a run. *)
Fixpoint total_extra (entropy : nat -> nat) (k : nat) : Z :=
  match k with
  | O => 0
  | S k' => total_extra entropy k'
            + extra_lines entropy (section_num (run entropy k'))
                          (rng (run entropy k'))
  end.

(** The list elements appended over the first [k] passes of a run. *)
Fixpoint total_elements (entropy : nat -> nat) (k : nat) : Z :=
  match k with
  | O => 0
  | S k' => total_elements entropy k'
            + len (pass_section entropy (run entropy k'))
  end.

(** A generator whose raw draws are all zero: every [randint] returns its
    lower bound and every [choice] the first sample. *)
Definition zero_draws : nat -> nat := fun _ => O.

(** *** The values the generator returns

    A value returned by a call of the random generator: an integer from
    [randint] or a sample from [choice]. *)
Inductive draw : Type :=
  | DInt (z : Z)
  | DStr (x : string).

(** The values returned, in call order, by the calls of the pass that builds
    section [n] with the generator at position [r]: the paragraph count
    (line 175), the list-entry count (line 182), then the code sample
    (line 190) and the table sample (line 197) when their blocks are
    taken.  [pass_draws_iff_section] below shows that two passes build the
    same list exactly when these values agree. *)
Definition pass_draws (entropy : nat -> nat) (n : Z) (r : nat) : list draw :=
  ([DInt (randint_val entropy 2 4 r); DInt (randint_val entropy 3 6 (S r))]
   ++ (if (n mod 3 =? 0)%Z
       then [DStr (choice_val entropy code_samples (S (S r)))] else [])
   ++ (if (n mod 4 =? 0)%Z
       then [DStr (choice_val entropy table_samples (code_draws n + S (S r)))]
       else []))%list.

(** The values returned during the loop, pass after pass, up to the pass
    after which the loop test fails; [None] when the fuel runs out first,
    as for [while]. *)
Fixpoint while_draws (entropy : nat -> nat) (target : Z) (fuel : nat)
         (s : loop_state) : option (list draw) :=
  if (line_count s <? target)%Z then
    match fuel with
    | O => None
    | S fuel' =>
        option_map (app (pass_draws entropy (section_num s) (rng s)))
                   (while_draws entropy target fuel' (loop_body entropy s))
    end
  else Some [].

(** The sequence of values the generator returns in a run of the script. *)
Definition run_draws (entropy : nat -> nat) (target : Z) : option (list draw) :=
  while_draws entropy target (Z.to_nat target) init_state.

(** A generator whose raw draws are 3, 4, 8 and then 7 for ever.  In a run
    with bound 100 its three calls return what those of [zero_draws] return
    (3 and 0 agree modulo 3, 4 and 0 modulo 4, 8 and 0 modulo 4), although
    the raw draws differ everywhere. *)
Definition other_draws : nat -> nat :=
  fun i => match i with
           | O => 3%nat
           | S O => 4%nat
           | S (S O) => 8%nat
           | _ => 7%nat
           end.


(** Markdown markers at the start of a list element. *)
Definition is_fence (x : string) : bool := prefix "```" x.
Definition is_table_row (x : string) : bool := prefix "|" x.
Definition is_quote (x : string) : bool := prefix ">" x.
Definition is_task (x : string) : bool := prefix "- [" x.

(** *** Counting code fences

    The lines of a text that open or close a code fence. *)
Definition fence_lines (s : string) : nat :=
  List.length (filter is_fence (split_nl s)).

Fixpoint sum_fence_lines (l : list string) : nat :=
  match l with
  | [] => O
  | x :: r => (fence_lines x + sum_fence_lines r)%nat
  end.

(** Among the first [k] generated sections, those with a code block: the
    ones whose number is divisible by 3. *)
Fixpoint code_sections (k : nat) : nat :=
  match k with
  | O => O
  | S k' => (code_sections k'
             + (if ((3 + Z.of_nat k') mod 3 =? 0)%Z then 1 else 0))%nat
  end.

(** What a section holds between its heading and its closing part. *)
Definition frame_body (entropy : nat -> nat) (n : Z) (r : nat) : list string :=
  (EmptyString :: paragraphs_part entropy n r
   ++ ["### List Items"; EmptyString]
   ++ items_part entropy (S r)
   ++ [EmptyString]
   ++ code_part entropy n (S (S r))
   ++ table_part entropy n (code_draws n + S (S r))
   ++ quote_part n
   ++ task_part n)%list.

(** Reading a text line by line: outside a code block a line that starts
    with three backticks opens one; inside a code block a line that is
    exactly three backticks closes it, and any other line is code. *)
Definition fence_step (inside : bool) (x : string) : bool :=
  if inside then negb (String.eqb x "```") else is_fence x.

(** Whether the reader is inside a code block after the lines [ls]. *)
Definition scan_fences (inside : bool) (ls : list string) : bool :=
  fold_left fence_step ls inside.

(** A text all of whose code blocks are closed: read from outside a code
    block, it ends outside one. *)
Definition fences_closed (s : string) : bool :=
  negb (scan_fences false (split_nl s)).

(** * Lines and newlines *)

Lemma split_nl_length (s : string) :
  List.length (split_nl s) = S (newlines s).
Proof.
  induction s as [|c r IH]; simpl; [reflexivity|].
  destruct (Ascii.eqb c nl); simpl.
  - now rewrite IH.
  - destruct (split_nl r) as [|h t]; simpl in *; [discriminate|exact IH].
Qed.

Lemma lines_newlines (s : string) : lines s = 1 + Z.of_nat (newlines s).
Proof. unfold lines, len. rewrite split_nl_length. lia. Qed.

Lemma lines_pos (s : string) : 1 <= lines s.
Proof. rewrite lines_newlines. lia. Qed.

Lemma newlines_app (a b : string) :
  newlines (a ++ b) = (newlines a + newlines b)%nat.
Proof.
  induction a as [|c r IH]; simpl; [reflexivity|].
  destruct (Ascii.eqb c nl); simpl; now rewrite IH.
Qed.

Lemma lines_app (a b : string) : lines (a ++ b) = lines a + lines b - 1.
Proof. rewrite !lines_newlines, newlines_app. lia. Qed.

Lemma lines_join_cons (x y : string) (l : list string) :
  lines (join nls (x :: y :: l)) = lines x + lines (join nls (y :: l)).
Proof.
  change (join nls (x :: y :: l)) with (x ++ nls ++ join nls (y :: l)).
  rewrite !lines_app. change (lines nls) with 2. lia.
Qed.

(** Joining with newlines adds up the line counts of the pieces. *)
Lemma lines_join (x : string) (l : list string) :
  lines (join nls (x :: l)) = sum_lines (x :: l).
Proof.
  revert x. induction l as [|y l IH]; intro x.
  - simpl. lia.
  - rewrite lines_join_cons, IH. reflexivity.
Qed.

Lemma sum_lines_app (l1 l2 : list string) :
  sum_lines (l1 ++ l2) = sum_lines l1 + sum_lines l2.
Proof. induction l1 as [|x l1 IH]; simpl; [reflexivity|]. rewrite IH. lia. Qed.

Lemma sum_lines_ge_len (l : list string) : len l <= sum_lines l.
Proof.
  unfold len. induction l as [|x l IH]; simpl List.length; simpl sum_lines.
  - lia.
  - pose proof (lines_pos x). lia.
Qed.

(** A list whose pieces are all single lines. *)
Lemma sum_lines_single (l : list string) :
  Forall (fun x => newlines x = O) l -> sum_lines l = len l.
Proof.
  unfold len. induction 1 as [|x l Hx _ IH]; simpl List.length; simpl sum_lines.
  - reflexivity.
  - rewrite lines_newlines, Hx, IH. lia.
Qed.


(** * One pass of the loop body *)

Section Pass.

Variable entropy : nat -> nat.

(** A [for] loop whose body only appends. *)
Lemma for_range_from_appends (f : Z -> list string) (body : Z -> Build unit) :
  (forall i s, body i s = (tt, mk_build_state (rng_pos s) (section s ++ f i))) ->
  forall n i s,
    for_range_from i n body s
    = (tt, mk_build_state (rng_pos s) (section s ++ flat_map f (zrange i n))).
Proof.
  intros Hbody. induction n as [|n IH]; intros i s.
  - simpl. unfold ret. rewrite app_nil_r. now destruct s.
  - simpl. unfold bind. rewrite Hbody, IH. simpl. now rewrite <- app_assoc.
Qed.

Lemma flat_map_single {A B : Type} (f : A -> B) (l : list A) :
  flat_map (fun x => [f x]) l = map f l.
Proof. induction l as [|x l IH]; simpl; [reflexivity|now rewrite IH]. Qed.

(** How each statement of the body acts on the state in front of the rest
    of the body. *)
Lemma bind_append {B : Type} (x : string) (k : unit -> Build B) (s : build_state) :
  bind (append x) k s
  = k tt (mk_build_state (rng_pos s) (section s ++ [x])).
Proof. reflexivity. Qed.

Lemma bind_randint {B : Type} (a b : Z) (k : Z -> Build B) (s : build_state) :
  bind (randint entropy a b) k s
  = k (randint_val entropy a b (rng_pos s))
      (mk_build_state (S (rng_pos s)) (section s)).
Proof. reflexivity. Qed.

Lemma bind_choice {B : Type} (seq : list string) (k : string -> Build B)
      (s : build_state) :
  bind (choice entropy seq) k s
  = k (choice_val entropy seq (rng_pos s))
      (mk_build_state (S (rng_pos s)) (section s)).
Proof. reflexivity. Qed.

Lemma bind_for_range {B : Type} (f : Z -> list string) (body : Z -> Build unit)
      (n : Z) (k : unit -> Build B) (s : build_state) :
  (forall i s, body i s = (tt, mk_build_state (rng_pos s) (section s ++ f i))) ->
  bind (for_range n body) k s
  = k tt (mk_build_state (rng_pos s)
                         (section s ++ flat_map f (zrange 0 (Z.to_nat n)))).
Proof.
  intros Hbody. unfold bind, for_range.
  now rewrite (for_range_from_appends f body Hbody).
Qed.

Lemma bind_when {B : Type} (c : bool) (m : Build unit) (k : unit -> Build B)
      (s : build_state) :
  bind (when c m) k s = if c then bind m k s else k tt s.
Proof. now destruct c. Qed.

Lemma bind_bind {A B C : Type} (m : Build A) (f : A -> Build B)
      (k : B -> Build C) (s : build_state) :
  bind (bind m f) k s = bind m (fun a => bind (f a) k) s.
Proof. unfold bind. now destruct (m s). Qed.

(** One statement of a straight-line block. *)
Ltac block_step :=
  first [ rewrite bind_bind | rewrite bind_append | rewrite bind_choice ];
  cbv beta; cbn [rng_pos section].

(** The four conditional blocks, each in front of any rest [k]. *)
Lemma code_block_eq {B : Type} (n : Z) (k : unit -> Build B) (r : nat)
      (sec : list string) :
  bind (when (n mod 3 =? 0)%Z (
          append "### Code Example" ;;
          append EmptyString ;;
          sample <- choice entropy code_samples ;;
          append sample ;;
          append EmptyString)) k (mk_build_state r sec)
  = k tt (mk_build_state (code_draws n + r) (sec ++ code_part entropy n r)).
Proof.
  rewrite bind_when. unfold code_part, code_draws.
  destruct (n mod 3 =? 0)%Z.
  - repeat block_step. cbn [Nat.add]. now rewrite <- !app_assoc.
  - now rewrite app_nil_r.
Qed.

Lemma table_block_eq {B : Type} (n : Z) (k : unit -> Build B) (r : nat)
      (sec : list string) :
  bind (when (n mod 4 =? 0)%Z (
          append "### Data Table" ;;
          append EmptyString ;;
          sample <- choice entropy table_samples ;;
          append sample ;;
          append EmptyString)) k (mk_build_state r sec)
  = k tt (mk_build_state (table_draws n + r) (sec ++ table_part entropy n r)).
Proof.
  rewrite bind_when. unfold table_part, table_draws.
  destruct (n mod 4 =? 0)%Z.
  - repeat block_step. cbn [Nat.add]. now rewrite <- !app_assoc.
  - now rewrite app_nil_r.
Qed.

Lemma quote_block_eq {B : Type} (n : Z) (k : unit -> Build B) (r : nat)
      (sec : list string) :
  bind (when (n mod 5 =? 0)%Z (
          append "> This is a blockquote with important information." ;;
          append "> It spans multiple lines for testing purposes." ;;
          append EmptyString)) k (mk_build_state r sec)
  = k tt (mk_build_state r (sec ++ quote_part n)).
Proof.
  rewrite bind_when. unfold quote_part.
  destruct (n mod 5 =? 0)%Z.
  - repeat block_step. now rewrite <- !app_assoc.
  - now rewrite app_nil_r.
Qed.

Lemma task_block_eq {B : Type} (n : Z) (k : unit -> Build B) (r : nat)
      (sec : list string) :
  bind (when (n mod 6 =? 0)%Z (
          append "### Tasks" ;;
          append EmptyString ;;
          append "- [ ] Unchecked task item" ;;
          append "- [x] Checked task item" ;;
          append "- [ ] Another unchecked task" ;;
          append EmptyString)) k (mk_build_state r sec)
  = k tt (mk_build_state r (sec ++ task_part n)).
Proof.
  rewrite bind_when. unfold task_part.
  destruct (n mod 6 =? 0)%Z.
  - repeat block_step. now rewrite <- !app_assoc.
  - now rewrite app_nil_r.
Qed.

(** The monadic body computes [section_of]. *)
Lemma build_section_eq (n : Z) (r : nat) (sec : list string) :
  build_section entropy n (mk_build_state r sec)
  = (tt, mk_build_state (draws_used n + r)
                        (sec ++ section_of entropy n r)).
Proof.
  unfold build_section.
  rewrite !bind_append, bind_randint. cbn [rng_pos section].
  rewrite (bind_for_range (fun p => [paragraph n p; EmptyString]))
    by (intros i s; rewrite bind_append; unfold append;
        cbn [rng_pos section]; now rewrite <- app_assoc).
  rewrite !bind_append, bind_randint. cbn [rng_pos section].
  rewrite (bind_for_range (fun i => [list_item i])) by reflexivity.
  rewrite bind_append. cbn [rng_pos section].
  rewrite code_block_eq, table_block_eq, quote_block_eq, task_block_eq.
  rewrite !bind_append. unfold append. cbn [rng_pos section].
  rewrite flat_map_single.
  unfold section_of, draws_used, closing_part, paragraphs_part, items_part, heading.
  repeat rewrite <- app_assoc. cbn [app].
  match goal with
  | |- (_, mk_build_state ?a _) = (_, mk_build_state ?b _) =>
      replace a with b by lia
  end.
  reflexivity.
Qed.

End Pass.

(** * Decimal rendering *)

Section Decimal.

Lemma newlines_uint (d : Decimal.uint) :
  newlines (NilEmpty.string_of_uint d) = O.
Proof. induction d; simpl; auto. Qed.

Lemma ascii_only_uint (d : Decimal.uint) :
  ascii_only (NilEmpty.string_of_uint d) = true.
Proof. induction d; simpl; auto. Qed.

Lemma nilzero_uint (d : Decimal.uint) :
  NilZero.string_of_uint d = "0"
  \/ NilZero.string_of_uint d = NilEmpty.string_of_uint d.
Proof. destruct d; simpl; auto. Qed.

(** A rendered integer has no newline in it. *)
Lemma newlines_str (n : Z) : newlines (str n) = O.
Proof.
  unfold str, NilZero.string_of_int.
  destruct (Z.to_int n) as [d|d]; simpl;
    destruct (nilzero_uint d) as [H|H]; rewrite H;
    auto using newlines_uint.
Qed.

(** A rendered integer is plain ASCII. *)
Lemma ascii_only_str (n : Z) : ascii_only (str n) = true.
Proof.
  unfold str, NilZero.string_of_int.
  destruct (Z.to_int n) as [d|d]; simpl;
    destruct (nilzero_uint d) as [H|H]; rewrite H;
    auto using ascii_only_uint.
Qed.

Lemma ascii_only_app (a b : string) :
  ascii_only (a ++ b) = ascii_only a && ascii_only b.
Proof.
  induction a as [|c a IH]; simpl; [reflexivity|].
  now rewrite IH, andb_assoc.
Qed.

Lemma ascii_only_join (l : list string) :
  forallb ascii_only l = true -> ascii_only (join nls l) = true.
Proof.
  induction l as [|x l IH]; [reflexivity|].
  intros H. cbn [forallb] in H. apply andb_true_iff in H as [Hx Hl].
  destruct l as [|y l]; [exact Hx|].
  change (join nls (x :: y :: l)) with (x ++ nls ++ join nls (y :: l)).
  rewrite !ascii_only_app, Hx, (IH Hl). reflexivity.
Qed.

(** On plain ASCII text the UTF-8 encoding is one byte per character. *)
Lemma utf8_encode_ascii (s : string) :
  ascii_only s = true ->
  List.length (utf8_encode s) = String.length s.
Proof.
  induction s as [|c s IH]; simpl; [reflexivity|].
  intros H. apply andb_true_iff in H as [Hc Hs].
  unfold utf8_encode_cp. unfold is_ascii in Hc. rewrite Hc. simpl.
  now rewrite (IH Hs).
Qed.

End Decimal.

(** * The fragments of a section *)

Section FragmentFacts.

Variable entropy : nat -> nat.

Lemma zrange_length (i : Z) (n : nat) : List.length (zrange i n) = n.
Proof. revert i. induction n as [|n IH]; intro i; simpl; auto. Qed.

(** [randint] stays inside its bounds. *)
Lemma randint_val_range (a b : Z) (r : nat) :
  a <= b -> a <= randint_val entropy a b r <= b.
Proof.
  intros Hab. unfold randint_val.
  pose proof (Z.mod_pos_bound (Z.of_nat (entropy r)) (b - a + 1)). lia.
Qed.

(** [choice] returns an element of a non-empty list. *)
Lemma choice_val_in (seq : list string) (r : nat) :
  seq <> [] -> In (choice_val entropy seq r) seq.
Proof.
  intros Hne. unfold choice_val. apply nth_In.
  apply Nat.mod_upper_bound. destruct seq; [congruence|simpl; lia].
Qed.

Ltac one_line :=
  unfold heading, paragraph, list_item;
  repeat rewrite newlines_app; rewrite ?newlines_str; reflexivity.

Lemma newlines_heading (n : Z) : newlines (heading n) = O.
Proof. one_line. Qed.

Lemma newlines_paragraph (n p : Z) : newlines (paragraph n p) = O.
Proof. one_line. Qed.

Lemma newlines_list_item (i : Z) : newlines (list_item i) = O.
Proof. one_line. Qed.

Lemma paragraphs_single (n : Z) (r : nat) :
  Forall (fun x => newlines x = O) (paragraphs_part entropy n r).
Proof.
  unfold paragraphs_part. generalize (Z.to_nat (randint_val entropy 2 4 r)).
  generalize 0. intros i k. revert i.
  induction k as [|k IH]; intro i; simpl; [constructor|].
  constructor; [apply newlines_paragraph|].
  constructor; [reflexivity|apply IH].
Qed.

Lemma items_single (r : nat) :
  Forall (fun x => newlines x = O) (items_part entropy r).
Proof.
  unfold items_part. apply Forall_map, Forall_forall.
  intros i _. apply newlines_list_item.
Qed.

Lemma quote_single (n : Z) : Forall (fun x => newlines x = O) (quote_part n).
Proof. unfold quote_part. destruct (n mod 5 =? 0)%Z; repeat constructor. Qed.

Lemma task_single (n : Z) : Forall (fun x => newlines x = O) (task_part n).
Proof. unfold task_part. destruct (n mod 6 =? 0)%Z; repeat constructor. Qed.

Lemma closing_single (n : Z) : Forall (fun x => newlines x = O) (closing_part n).
Proof. unfold closing_part. repeat constructor; one_line. Qed.

Lemma paragraphs_len (n : Z) (r : nat) :
  len (paragraphs_part entropy n r) = 2 * randint_val entropy 2 4 r.
Proof.
  pose proof (randint_val_range 2 4 r ltac:(lia)) as Hr.
  unfold paragraphs_part, len.
  assert (H : forall i k, List.length
            (flat_map (fun p => [paragraph n p; EmptyString]) (zrange i k))
            = (2 * k)%nat).
  { intros i k. revert i. induction k as [|k IH]; intro i; simpl; [reflexivity|].
    rewrite IH. lia. }
  rewrite H. lia.
Qed.

Lemma items_len (r : nat) :
  len (items_part entropy r) = randint_val entropy 3 6 r.
Proof.
  pose proof (randint_val_range 3 6 r ltac:(lia)) as Hr.
  unfold items_part, len. rewrite length_map, zrange_length. lia.
Qed.

Lemma len_app {A : Type} (l1 l2 : list A) : len (l1 ++ l2) = len l1 + len l2.
Proof. unfold len. rewrite length_app. lia. Qed.

Lemma len_nonneg {A : Type} (l : list A) : 0 <= len l.
Proof. unfold len. lia. Qed.

(** The number of list elements of a section: 11 fixed ones, two per
    paragraph, one per list item, and the conditional blocks. *)
Lemma section_of_len (n : Z) (r : nat) :
  len (section_of entropy n r)
  = 11 + 2 * randint_val entropy 2 4 r + randint_val entropy 3 6 (S r)
    + len (code_part entropy n (S (S r)))
    + len (table_part entropy n (code_draws n + S (S r)))
    + len (quote_part n) + len (task_part n).
Proof.
  unfold section_of. rewrite !len_app, paragraphs_len, items_len.
  unfold closing_part.
  change (len [heading n; EmptyString]) with 2.
  change (len ["### List Items"; EmptyString]) with 2.
  change (len [EmptyString]) with 1.
  match goal with |- context [len (?a :: ?b :: ?c :: ?d :: ?e :: [?f])] =>
    change (len (a :: b :: c :: d :: e :: [f])) with 6 end.
  lia.
Qed.

Lemma section_of_len_bounds (n : Z) (r : nat) :
  18 <= len (section_of entropy n r) <= 42.
Proof.
  rewrite section_of_len.
  pose proof (randint_val_range 2 4 r ltac:(lia)).
  pose proof (randint_val_range 3 6 (S r) ltac:(lia)).
  unfold code_part, table_part, quote_part, task_part.
  destruct (n mod 3 =? 0)%Z, (n mod 4 =? 0)%Z, (n mod 5 =? 0)%Z, (n mod 6 =? 0)%Z;
    unfold len; simpl List.length; lia.
Qed.

End FragmentFacts.

(** * The loop *)

Section Loop.

Variable entropy : nat -> nat.

Lemma pass_section_eq (s : loop_state) :
  pass_section entropy s = section_of entropy (section_num s) (rng s).
Proof. unfold pass_section, built_section. now rewrite build_section_eq. Qed.

(** One pass, field by field. *)
Lemma loop_body_eq (s : loop_state) :
  loop_body entropy s
  = mk_loop_state (sections s ++ [join nls (pass_section entropy s)])
                  (section_num s + 1)
                  (line_count s + len (pass_section entropy s))
                  (draws_used (section_num s) + rng s).
Proof.
  unfold loop_body. rewrite pass_section_eq, build_section_eq. reflexivity.
Qed.

Lemma pass_section_len (s : loop_state) :
  18 <= len (pass_section entropy s) <= 42.
Proof. rewrite pass_section_eq. apply section_of_len_bounds. Qed.

Lemma pass_section_nonempty (s : loop_state) : pass_section entropy s <> [].
Proof.
  pose proof (pass_section_len s) as H. intros E. rewrite E in H.
  unfold len in H. simpl in H. lia.
Qed.

(** The text of a section has as many lines as its pieces have together. *)
Lemma lines_section_text (s : loop_state) :
  lines (join nls (pass_section entropy s)) = sum_lines (pass_section entropy s).
Proof.
  pose proof (pass_section_nonempty s) as H.
  destruct (pass_section entropy s) as [|x l]; [congruence|apply lines_join].
Qed.

Lemma line_count_step (s : loop_state) :
  line_count s + 18 <= line_count (loop_body entropy s).
Proof. rewrite loop_body_eq. simpl. pose proof (pass_section_len s). lia. Qed.

(** ** Unrolling [while] *)

Lemma iter_loop_body_shift (k : nat) (s : loop_state) :
  Nat.iter k (loop_body entropy) (loop_body entropy s)
  = Nat.iter (S k) (loop_body entropy) s.
Proof. induction k as [|k IH]; simpl; [reflexivity|]. now rewrite IH. Qed.

(** A finished loop made some number of passes, stopped at the first state
    whose tally is not below the bound, and used no more fuel than passes. *)
Lemma while_unroll (target : Z) (fuel : nat) :
  forall s s', while entropy target fuel s = Some s' ->
  exists k : nat,
    (k <= fuel)%nat
    /\ s' = Nat.iter k (loop_body entropy) s
    /\ target <= line_count s'
    /\ forall j : nat, (j < k)%nat ->
         line_count (Nat.iter j (loop_body entropy) s) < target.
Proof.
  induction fuel as [|fuel IH]; intros s s' H; simpl in H.
  - destruct (line_count s <? target)%Z eqn:E; [discriminate|].
    inversion H; subst s'. exists O. simpl. repeat split; try lia.
  - destruct (line_count s <? target)%Z eqn:E.
    + destruct (IH _ _ H) as (k & Hk & Hs & Ht & Hlt).
      exists (S k). rewrite <- iter_loop_body_shift.
      repeat split; [lia|exact Hs|exact Ht|].
      intros [|j] Hj; [simpl; lia|].
      rewrite <- iter_loop_body_shift. apply Hlt. lia.
    + inversion H; subst s'. exists O. simpl. repeat split; try lia.
Qed.

(** Enough fuel: the tally grows on every pass, so the distance to the
    bound is a bound on the number of passes. *)
Lemma while_enough_fuel (target : Z) (fuel : nat) :
  forall s, target - line_count s <= Z.of_nat fuel ->
  exists s', while entropy target fuel s = Some s'.
Proof.
  induction fuel as [|fuel IH]; intros s H; simpl.
  - destruct (line_count s <? target)%Z eqn:E; [lia|eauto].
  - destruct (line_count s <? target)%Z eqn:E; [|eauto].
    apply IH. pose proof (line_count_step s). lia.
Qed.

(** More fuel does not change the result. *)
Lemma while_fuel_mono (target : Z) (fuel fuel' : nat) :
  (fuel <= fuel')%nat ->
  forall s s', while entropy target fuel s = Some s' ->
               while entropy target fuel' s = Some s'.
Proof.
  revert fuel'. induction fuel as [|fuel IH]; intros fuel' Hle s s' H.
  - simpl in H. destruct (line_count s <? target)%Z eqn:E; [discriminate|].
    destruct fuel'; simpl; now rewrite E.
  - destruct fuel' as [|fuel']; [lia|]. simpl in *.
    destruct (line_count s <? target)%Z; [|exact H].
    apply (IH fuel'); [lia|exact H].
Qed.

(** ** What every pass keeps true *)

Lemma run_S (k : nat) : run entropy (S k) = loop_body entropy (run entropy k).
Proof. reflexivity. Qed.

Lemma run_section_num (k : nat) : section_num (run entropy k) = 3 + Z.of_nat k.
Proof.
  induction k as [|k IH]; [reflexivity|].
  rewrite run_S, loop_body_eq. cbn [section_num]. lia.
Qed.

Lemma run_sections_length (k : nat) :
  List.length (sections (run entropy k)) = S k.
Proof.
  induction k as [|k IH]; [reflexivity|].
  rewrite run_S, loop_body_eq. cbn [sections]. rewrite length_app, IH. simpl. lia.
Qed.

Lemma run_sections_head (k : nat) :
  exists gen, sections (run entropy k) = template :: gen /\ List.length gen = k.
Proof.
  induction k as [|k (gen & Hs & Hl)]; [now exists []|].
  rewrite run_S, loop_body_eq. cbn [sections]. rewrite Hs.
  eexists. split; [reflexivity|]. rewrite length_app, Hl. simpl. lia.
Qed.

(** The text before the footer has the line counts of its blocks added up. *)
Lemma lines_joined_doc (k : nat) :
  lines (joined_doc (run entropy k)) = sum_lines (sections (run entropy k)).
Proof.
  unfold joined_doc. destruct (run_sections_head k) as (gen & Hs & _).
  rewrite Hs. apply lines_join.
Qed.

Lemma sum_lines_step (s : loop_state) :
  sum_lines (sections (loop_body entropy s))
  = sum_lines (sections s) + sum_lines (pass_section entropy s).
Proof.
  rewrite loop_body_eq. cbn [sections]. rewrite sum_lines_app.
  cbn [sum_lines]. rewrite lines_section_text. lia.
Qed.

(** The tally is a lower bound of the real line count. *)
Lemma tally_le_lines (k : nat) :
  line_count (run entropy k) <= lines (joined_doc (run entropy k)).
Proof.
  rewrite lines_joined_doc. induction k as [|k IH].
  - cbn. fold (lines template). lia.
  - rewrite run_S, sum_lines_step. rewrite loop_body_eq. cbn [line_count].
    pose proof (sum_lines_ge_len (pass_section entropy (run entropy k))). lia.
Qed.

(** The script's loop, started from the initial state, ends. *)
Lemma while_init_ends (target : Z) :
  exists (s : loop_state) (k : nat),
    while entropy target (Z.to_nat target) init_state = Some s
    /\ s = run entropy k
    /\ target <= line_count s
    /\ forall j : nat, (j < k)%nat -> line_count (run entropy j) < target.
Proof.
  destruct (while_enough_fuel target (Z.to_nat target) init_state) as (s & Hs).
  { assert (0 <= line_count init_state) by (unfold init_state; simpl; apply len_nonneg).
    lia. }
  destruct (while_unroll _ _ _ _ Hs) as (k & _ & Hk & Ht & Hlt).
  exists s, k. auto.
Qed.

End Loop.

(** * Samples and the lines they hide *)

Section Samples.

Variable entropy : nat -> nat.

Lemma code_samples_facts :
  forallb (fun c => (6 <=? newlines c)%nat && ascii_only c && is_fence c
                    && negb (is_table_row c) && negb (is_quote c)
                    && negb (is_task c)) code_samples = true.
Proof. vm_compute. reflexivity. Qed.

Lemma table_samples_facts :
  forallb (fun c => (4 <=? newlines c)%nat && ascii_only c && is_table_row c
                    && negb (is_fence c) && negb (is_quote c)
                    && negb (is_task c)) table_samples = true.
Proof. vm_compute. reflexivity. Qed.

Lemma code_choice_facts (r : nat) :
  let c := choice_val entropy code_samples r in
  (6 <= newlines c)%nat /\ ascii_only c = true /\ is_fence c = true
  /\ is_table_row c = false /\ is_quote c = false /\ is_task c = false.
Proof.
  intro c. pose proof code_samples_facts as H.
  rewrite forallb_forall in H.
  specialize (H c (choice_val_in entropy code_samples r ltac:(discriminate))).
  repeat (apply andb_true_iff in H as [H ?]).
  repeat match goal with X : negb _ = true |- _ => apply negb_true_iff in X end.
  apply Nat.leb_le in H. auto 10.
Qed.

Lemma table_choice_facts (r : nat) :
  let c := choice_val entropy table_samples r in
  (4 <= newlines c)%nat /\ ascii_only c = true /\ is_table_row c = true
  /\ is_fence c = false /\ is_quote c = false /\ is_task c = false.
Proof.
  intro c. pose proof table_samples_facts as H.
  rewrite forallb_forall in H.
  specialize (H c (choice_val_in entropy table_samples r ltac:(discriminate))).
  repeat (apply andb_true_iff in H as [H ?]).
  repeat match goal with X : negb _ = true |- _ => apply negb_true_iff in X end.
  apply Nat.leb_le in H. auto 10.
Qed.

Lemma sum_lines_code_part (n : Z) (r : nat) :
  sum_lines (code_part entropy n r)
  = len (code_part entropy n r)
    + (if (n mod 3 =? 0)%Z
       then Z.of_nat (newlines (choice_val entropy code_samples r)) else 0).
Proof.
  unfold code_part. destruct (n mod 3 =? 0)%Z; [|reflexivity].
  cbn [sum_lines]. rewrite (lines_newlines (choice_val _ _ _)).
  change (lines "### Code Example") with 1. change (lines EmptyString) with 1.
  unfold len. cbn [List.length]. lia.
Qed.

Lemma sum_lines_table_part (n : Z) (r : nat) :
  sum_lines (table_part entropy n r)
  = len (table_part entropy n r)
    + (if (n mod 4 =? 0)%Z
       then Z.of_nat (newlines (choice_val entropy table_samples r)) else 0).
Proof.
  unfold table_part. destruct (n mod 4 =? 0)%Z; [|reflexivity].
  cbn [sum_lines]. rewrite (lines_newlines (choice_val _ _ _)).
  change (lines "### Data Table") with 1. change (lines EmptyString) with 1.
  unfold len. cbn [List.length]. lia.
Qed.

(** The lines of a section text: one per list element, plus the newlines
    inside the embedded samples. *)
Lemma sum_lines_section_of (n : Z) (r : nat) :
  sum_lines (section_of entropy n r)
  = len (section_of entropy n r) + extra_lines entropy n r.
Proof.
  unfold section_of, extra_lines.
  rewrite !sum_lines_app, !len_app.
  rewrite sum_lines_code_part, sum_lines_table_part.
  rewrite (sum_lines_single _ (paragraphs_single entropy n r)).
  rewrite (sum_lines_single _ (items_single entropy (S r))).
  rewrite (sum_lines_single _ (quote_single n)).
  rewrite (sum_lines_single _ (task_single n)).
  rewrite (sum_lines_single _ (closing_single n)).
  rewrite (sum_lines_single [heading n; EmptyString])
    by (repeat constructor; apply newlines_heading).
  rewrite (sum_lines_single ["### List Items"; EmptyString])
    by (repeat constructor).
  rewrite (sum_lines_single [EmptyString]) by (repeat constructor).
  lia.
Qed.

Lemma extra_lines_nonneg (n : Z) (r : nat) : 0 <= extra_lines entropy n r.
Proof.
  unfold extra_lines.
  destruct (n mod 3 =? 0)%Z, (n mod 4 =? 0)%Z; lia.
Qed.

(** No sample, no hidden line; a sample hides at least four. *)
Lemma extra_lines_zero (n : Z) (r : nat) :
  extra_lines entropy n r = 0 <-> (n mod 3 <> 0 /\ n mod 4 <> 0).
Proof.
  unfold extra_lines.
  pose proof (code_choice_facts (S (S r))) as (Hc & _).
  pose proof (table_choice_facts (code_draws n + S (S r))) as (Ht & _).
  destruct (Z.eqb_spec (n mod 3) 0), (Z.eqb_spec (n mod 4) 0); lia.
Qed.

Lemma extra_lines_sample (n : Z) (r : nat) :
  n mod 3 = 0 \/ n mod 4 = 0 -> 4 <= extra_lines entropy n r.
Proof.
  unfold extra_lines.
  pose proof (code_choice_facts (S (S r))) as (Hc & _).
  pose proof (table_choice_facts (code_draws n + S (S r))) as (Ht & _).
  destruct (Z.eqb_spec (n mod 3) 0), (Z.eqb_spec (n mod 4) 0); lia.
Qed.

End Samples.

(** * The footer and the written text *)

Section Footer.

Variable entropy : nat -> nat.

(** The footer adds 13 newlines, whatever the two figures are. *)
Lemma newlines_footer (a g : Z) : newlines (footer a g) = 13%nat.
Proof.
  unfold footer. repeat rewrite newlines_app. rewrite !newlines_str.
  reflexivity.
Qed.

Lemma lines_footer (a g : Z) : lines (footer a g) = 14.
Proof. rewrite lines_newlines, newlines_footer. reflexivity. Qed.

Lemma ascii_only_footer (a g : Z) : ascii_only (footer a g) = true.
Proof.
  unfold footer. repeat rewrite ascii_only_app. rewrite !ascii_only_str.
  reflexivity.
Qed.

Lemma finish_full_doc (s : loop_state) :
  full_doc (finish s)
  = joined_doc s ++ footer (lines (joined_doc s)) (section_num s - 1).
Proof. reflexivity. Qed.

Lemma finish_actual_lines (s : loop_state) :
  actual_lines (finish s) = lines (joined_doc s).
Proof. reflexivity. Qed.

Lemma finish_final_lines (s : loop_state) :
  final_lines (finish s) = lines (joined_doc s) + 13.
Proof.
  unfold finish. cbn [final_lines]. fold (lines (joined_doc s)).
  match goal with |- len (split_nl ?d) = _ => change (len (split_nl d)) with (lines d) end.
  rewrite lines_app, lines_footer. lia.
Qed.

Ltac plain_ascii :=
  unfold heading, paragraph, list_item;
  repeat rewrite ascii_only_app; rewrite ?ascii_only_str; reflexivity.

Lemma ascii_only_template : ascii_only template = true.
Proof. vm_compute. reflexivity. Qed.

Lemma ascii_paragraphs (n : Z) (r : nat) :
  forallb ascii_only (paragraphs_part entropy n r) = true.
Proof.
  unfold paragraphs_part. generalize (Z.to_nat (randint_val entropy 2 4 r)).
  generalize 0. intros i k. revert i.
  induction k as [|k IH]; intro i; [reflexivity|].
  cbn [zrange flat_map app forallb]. rewrite IH.
  replace (ascii_only (paragraph n i)) with true by (symmetry; plain_ascii).
  reflexivity.
Qed.

Lemma ascii_items (r : nat) : forallb ascii_only (items_part entropy r) = true.
Proof.
  unfold items_part. apply forallb_forall. intros x Hx.
  apply in_map_iff in Hx as (i & <- & _). plain_ascii.
Qed.

(** Every list element of a section is plain ASCII. *)
Lemma ascii_section_of (n : Z) (r : nat) :
  forallb ascii_only (section_of entropy n r) = true.
Proof.
  unfold section_of. rewrite !forallb_app.
  rewrite ascii_paragraphs, ascii_items.
  pose proof (code_choice_facts entropy (S (S r))) as (_ & Hc & _).
  pose proof (table_choice_facts entropy (code_draws n + S (S r))) as (_ & Ht & _).
  unfold code_part, table_part, quote_part, task_part, closing_part.
  destruct (n mod 3 =? 0)%Z, (n mod 4 =? 0)%Z, (n mod 5 =? 0)%Z, (n mod 6 =? 0)%Z;
    cbn [forallb]; rewrite ?Hc, ?Ht;
    repeat rewrite ascii_only_app; rewrite ?ascii_only_str;
    replace (ascii_only (heading n)) with true by (symmetry; plain_ascii);
    reflexivity.
Qed.

Lemma ascii_sections_run (k : nat) :
  forallb ascii_only (sections (run entropy k)) = true.
Proof.
  induction k as [|k IH].
  - change (sections (run entropy 0)) with [template].
    cbn [forallb]. now rewrite ascii_only_template.
  - rewrite run_S, loop_body_eq. cbn [sections].
    rewrite forallb_app, IH. cbn [forallb].
    rewrite ascii_only_join; [reflexivity|].
    rewrite pass_section_eq. apply ascii_section_of.
Qed.

(** The written text of a run is plain ASCII. *)
Lemma ascii_full_doc (k : nat) :
  ascii_only (full_doc (finish (run entropy k))) = true.
Proof.
  rewrite finish_full_doc, ascii_only_app, ascii_only_footer.
  unfold joined_doc. rewrite ascii_only_join; [reflexivity|].
  apply ascii_sections_run.
Qed.

(** A character outside ASCII takes more than one byte. *)
Lemma utf8_encode_cp_length (c : N) :
  (1 <= List.length (utf8_encode_cp c))%nat
  /\ ((c <? 128)%N = false -> (2 <= List.length (utf8_encode_cp c))%nat).
Proof.
  unfold utf8_encode_cp.
  destruct (c <? 128)%N, (c <? 2048)%N, (c <? 65536)%N; simpl; split; intros; lia.
Qed.

Lemma utf8_encode_length_ge (s : string) :
  (String.length s <= List.length (utf8_encode s))%nat.
Proof.
  induction s as [|c s IH]; simpl; [lia|].
  rewrite length_app. pose proof (utf8_encode_cp_length (N_of_ascii c)). lia.
Qed.

(** The character count is the UTF-8 byte count exactly on ASCII text. *)
Lemma utf8_length_iff (s : string) :
  List.length (utf8_encode s) = String.length s <-> ascii_only s = true.
Proof.
  split; [|apply utf8_encode_ascii].
  induction s as [|c s IH]; simpl; [reflexivity|].
  rewrite length_app. intros H.
  pose proof (utf8_encode_cp_length (N_of_ascii c)) as (H1 & H2).
  pose proof (utf8_encode_length_ge s) as Hge.
  unfold is_ascii. destruct (N_of_ascii c <? 128)%N eqn:E.
  - simpl. apply IH. unfold utf8_encode_cp in H. rewrite E in H. simpl in H. lia.
  - specialize (H2 eq_refl). lia.
Qed.

End Footer.

(** * Reading the figures back from the footer *)

Section FooterFigures.

Lemma append_inv_head (a x y : string) : a ++ x = a ++ y -> x = y.
Proof.
  induction a as [|c a IH]; cbn [String.append]; [auto|].
  intros H. injection H as H. auto.
Qed.

(** Two texts without newline, each followed by a newline: the first
    newline marks where they end. *)
Lemma cut_at_newline (x y u v : string) :
  newlines x = O -> newlines y = O ->
  x ++ String nl u = y ++ String nl v -> x = y /\ u = v.
Proof.
  revert y. induction x as [|c x IH]; intros [|d y] Hx Hy H;
    cbn [String.append newlines] in *.
  - injection H as H. auto.
  - injection H as Hc _. subst d. rewrite Ascii.eqb_refl in Hy. discriminate.
  - injection H as Hc _. subst c. rewrite Ascii.eqb_refl in Hx. discriminate.
  - injection H as Hc H. subst d.
    destruct (Ascii.eqb c nl); [discriminate|].
    destruct (IH y Hx Hy H) as (-> & ->). auto.
Qed.

(** [str] renders different integers differently. *)
Lemma str_inj (a b : Z) : str a = str b -> a = b.
Proof.
  assert (P : forall n, NilZero.int_of_string (str n) = Some (Z.to_int n)).
  { intro n. unfold str. apply NilZero.isi; destruct n; cbn [Z.to_int];
      try discriminate; intros [= E]; now apply Unsigned.to_uint_nonnil in E. }
  intros H. apply DecimalZ.to_int_inj.
  pose proof (P a) as Ha. rewrite H, P in Ha. congruence.
Qed.

Lemma cut_at_newline_lit (x y lit u v : string) :
  newlines x = O -> newlines y = O ->
  x ++ (String nl lit ++ u) = y ++ (String nl lit ++ v) -> x = y /\ u = v.
Proof.
  intros Hx Hy H. cbn [String.append] in H.
  apply cut_at_newline in H as (-> & H); auto.
  apply append_inv_head in H. auto.
Qed.

(** The footer text determines both figures. *)
Lemma footer_inj (a g a' g' : Z) :
  footer a g = footer a' g' -> a = a' /\ g = g'.
Proof.
  unfold footer. intros H.
  apply append_inv_head in H.
  apply cut_at_newline_lit in H as (Ha & H); try apply newlines_str.
  apply cut_at_newline in H as (Hg & _); try apply newlines_str.
  split; now apply str_inj.
Qed.

(** So do the written text and the text before the footer. *)
Lemma finish_figures (s : loop_state) (a g : Z) :
  full_doc (finish s) = joined_doc s ++ footer a g ->
  a = lines (joined_doc s) /\ g = section_num s - 1.
Proof.
  rewrite finish_full_doc. intros H. apply append_inv_head in H.
  apply footer_inj in H as (-> & ->). auto.
Qed.

End FooterFigures.


(** * The tally against the real line count *)

Section Tally.

Variable entropy : nat -> nat.

Lemma generated_run_length (k : nat) :
  len (generated (run entropy k)) = Z.of_nat k.
Proof.
  unfold generated, len. destruct (run_sections_head entropy k) as (gen & Hs & Hl).
  rewrite Hs. simpl. now rewrite Hl.
Qed.

Lemma generated_step (k : nat) :
  generated (run entropy (S k))
  = (generated (run entropy k)
     ++ [join nls (pass_section entropy (run entropy k))])%list.
Proof.
  unfold generated. rewrite run_S, loop_body_eq. cbn [sections].
  destruct (run_sections_head entropy k) as (gen & Hs & _). now rewrite Hs.
Qed.

Lemma sum_lines_run (k : nat) :
  sum_lines (sections (run entropy k))
  = lines template + sum_lines (generated (run entropy k)).
Proof.
  unfold generated. destruct (run_sections_head entropy k) as (gen & Hs & _).
  now rewrite Hs.
Qed.

Lemma line_count_run_0 : line_count (run entropy 0) = lines template.
Proof.
  unfold run, lines. cbn [Nat.iter]. unfold init_state. cbn [line_count].
  reflexivity.
Qed.

(** The tally is the template's line count plus the list elements added. *)
Lemma line_count_run (k : nat) :
  line_count (run entropy k) = lines template + total_elements entropy k.
Proof.
  induction k as [|k IH].
  - rewrite line_count_run_0. cbn [total_elements]. lia.
  - rewrite run_S, loop_body_eq. cbn [line_count total_elements]. lia.
Qed.

(** The real line count is the tally plus the lines hidden in samples. *)
Lemma lines_run_exact (k : nat) :
  lines (joined_doc (run entropy k))
  = line_count (run entropy k) + total_extra entropy k.
Proof.
  rewrite lines_joined_doc. induction k as [|k IH].
  - rewrite line_count_run_0. change (sections (run entropy 0)) with [template].
    cbn [sum_lines total_extra]. lia.
  - rewrite run_S, sum_lines_step, IH, loop_body_eq.
    cbn [line_count total_extra].
    rewrite pass_section_eq, sum_lines_section_of. lia.
Qed.

Lemma total_extra_nonneg (k : nat) : 0 <= total_extra entropy k.
Proof.
  induction k as [|k IH]; cbn [total_extra]; [lia|].
  pose proof (extra_lines_nonneg entropy (section_num (run entropy k))
                                 (rng (run entropy k))). lia.
Qed.

(** Section 3, the first one generated, always embeds a code sample. *)
Lemma total_extra_pos (k : nat) : 4 <= total_extra entropy (S k).
Proof.
  induction k as [|k IH].
  - cbn [total_extra].
    pose proof (extra_lines_sample entropy (section_num (run entropy 0))
                  (rng (run entropy 0)) (or_introl eq_refl)). lia.
  - change (total_extra entropy (S (S k)))
      with (total_extra entropy (S k)
            + extra_lines entropy (section_num (run entropy (S k)))
                          (rng (run entropy (S k)))).
    pose proof (extra_lines_nonneg entropy (section_num (run entropy (S k)))
                                   (rng (run entropy (S k)))). lia.
Qed.

(** The loop of the script, with the state it ends in. *)
Lemma loop_result (target : Z) :
  exists (s : loop_state) (k : nat),
    while entropy target (Z.to_nat target) init_state = Some s
    /\ generate entropy target = Some (finish s)
    /\ s = run entropy k
    /\ target <= line_count s
    /\ (forall extra : nat,
          while entropy target (Z.to_nat target + extra) init_state = Some s).
Proof.
  destruct (while_init_ends entropy target) as (s & k & Hw & Hs & Ht & _).
  exists s, k. repeat split; auto.
  - unfold generate, generate_with. now rewrite Hw.
  - intro extra. apply (while_fuel_mono entropy target (Z.to_nat target)); [lia|exact Hw].
Qed.

End Tally.

(** * Properties of a run *)

(** C1: the loop ends and the document has at least as many lines as the
    bound asks for.  For the script's own bound 50000, and for any bound
    [target] (in particular any [target >= 1]), the loop started with fuel
    [target] returns a state, more fuel returns the same state, and both
    the text before the footer and the written text have at least [target]
    newline-delimited lines. *)
Theorem generation_reaches_target (entropy : nat -> nat) :
  (exists s : loop_state,
      while entropy target_line_count (Z.to_nat target_line_count) init_state
      = Some s
      /\ main entropy = Some (finish s)
      /\ 50000 <= lines (joined_doc s)
      /\ 50000 <= final_lines (finish s))
  /\ forall target : Z,
      exists s : loop_state,
        while entropy target (Z.to_nat target) init_state = Some s
        /\ (forall extra : nat,
              while entropy target (Z.to_nat target + extra) init_state = Some s)
        /\ generate entropy target = Some (finish s)
        /\ target <= lines (joined_doc s)
        /\ target <= final_lines (finish s).
Proof.
  assert (G : forall target : Z,
      exists s : loop_state,
        while entropy target (Z.to_nat target) init_state = Some s
        /\ (forall extra : nat,
              while entropy target (Z.to_nat target + extra) init_state = Some s)
        /\ generate entropy target = Some (finish s)
        /\ target <= lines (joined_doc s)
        /\ target <= final_lines (finish s)).
  { intro target.
    destruct (loop_result entropy target) as (s & k & Hw & Hg & Hs & Ht & Hf).
    exists s. repeat split; auto.
    - subst s. pose proof (tally_le_lines entropy k). lia.
    - rewrite finish_final_lines. subst s.
      pose proof (tally_le_lines entropy k). lia. }
  split; [|exact G].
  destruct (G target_line_count) as (s & Hw & _ & Hg & Hl & Hfin).
  exists s. unfold main. auto.
Qed.

(** C10: after every pass the tally [line_count] is at most the real
    newline-delimited line count of the joined blocks; from the first
    generated section on it is strictly smaller, because section 3 embeds a
    multi-line code sample as one list element; and when the loop of the
    script ends, the text before the footer has at least 50000 lines. *)
Theorem tally_never_overestimates (entropy : nat -> nat) :
  (forall k : nat,
      line_count (run entropy k) <= lines (joined_doc (run entropy k)))
  /\ (forall k : nat,
        line_count (run entropy (S k)) < lines (joined_doc (run entropy (S k))))
  /\ exists (s : loop_state) (k : nat),
       while entropy target_line_count (Z.to_nat target_line_count) init_state
       = Some s
       /\ s = run entropy k
       /\ 50000 <= line_count s
       /\ line_count s <= lines (joined_doc s).
Proof.
  split; [apply tally_le_lines|]. split.
  - intro k. rewrite lines_run_exact.
    pose proof (total_extra_pos entropy k). lia.
  - destruct (loop_result entropy target_line_count) as (s & k & Hw & _ & Hs & Ht & _).
    exists s, k. repeat split; auto. subst s. apply tally_le_lines.
Qed.

(** C2 as stated fails on the first pass already: with every raw draw zero,
    section 3 has 22 list elements, one of them the 12-line JavaScript
    sample, so its text has 33 lines; the tally goes from 88 to 110, while
    the template and the section text have 121 lines together. *)
Lemma tally_increment_is_not_line_count :
  line_count (run zero_draws 1) - line_count (run zero_draws 0) = 22
  /\ lines (join nls (pass_section zero_draws (run zero_draws 0))) = 33
  /\ line_count (run zero_draws 1)
     <> lines template + sum_lines (generated (run zero_draws 1)).
Proof. vm_compute. repeat split. discriminate. Qed.

(** C2, amended: a pass adds to the tally the number of list elements of the
    section it appends.  The text of that section has one line per element
    plus the newlines inside the code and table samples it embeds, so the
    two agree exactly when the section number is divisible neither by 3 nor
    by 4.  After [k] passes the tally is the template's line count plus the
    list elements appended so far, and it falls short of the line count of
    template and section texts by the newlines hidden in samples. *)
Theorem tally_counts_list_elements (entropy : nat -> nat) (k : nat) :
  line_count (run entropy (S k))
  = line_count (run entropy k) + len (pass_section entropy (run entropy k))
  /\ generated (run entropy (S k))
     = (generated (run entropy k)
        ++ [join nls (pass_section entropy (run entropy k))])%list
  /\ lines (join nls (pass_section entropy (run entropy k)))
     = len (pass_section entropy (run entropy k))
       + extra_lines entropy (section_num (run entropy k)) (rng (run entropy k))
  /\ 0 <= extra_lines entropy (section_num (run entropy k)) (rng (run entropy k))
  /\ (extra_lines entropy (section_num (run entropy k)) (rng (run entropy k)) = 0
      <-> section_num (run entropy k) mod 3 <> 0
          /\ section_num (run entropy k) mod 4 <> 0)
  /\ line_count (run entropy k) = lines template + total_elements entropy k
  /\ lines template + sum_lines (generated (run entropy k))
     = line_count (run entropy k) + total_extra entropy k.
Proof.
  split; [|split; [|split; [|split; [|split; [|split]]]]].
  - rewrite run_S, loop_body_eq. reflexivity.
  - apply generated_step.
  - rewrite lines_section_text, pass_section_eq. apply sum_lines_section_of.
  - apply extra_lines_nonneg.
  - apply extra_lines_zero.
  - apply line_count_run.
  - rewrite <- sum_lines_run, <- lines_joined_doc. apply lines_run_exact.
Qed.

(** C3 as stated fails on the script's own run: the figure is taken before
    the footer is appended, so it is neither the line count of the text
    before the footer plus the footer's 14 lines, nor the line count of the
    written text, which is 13 more. *)
Lemma footer_total_leaves_footer_out :
  exists s : loop_state,
    while zero_draws target_line_count (Z.to_nat target_line_count) init_state
    = Some s
    /\ forall a g : Z,
         full_doc (finish s) = joined_doc s ++ footer a g ->
         a <> lines (joined_doc s) + lines (footer a g)
         /\ a <> final_lines (finish s).
Proof.
  destruct (loop_result zero_draws target_line_count) as (s & k & Hw & _).
  exists s. split; [exact Hw|]. intros a g H.
  apply finish_figures in H as (-> & _).
  rewrite finish_final_lines, lines_footer. lia.
Qed.

(** C3, amended: the total-line figure of the footer is the number of
    newline-delimited lines of the text before the footer; the footer's own
    lines are not in it, and the written text has 13 lines more. *)
Theorem footer_total_is_prefooter_lines (entropy : nat -> nat) (target : Z) :
  exists s : loop_state,
    while entropy target (Z.to_nat target) init_state = Some s
    /\ generate entropy target = Some (finish s)
    /\ full_doc (finish s)
       = joined_doc s ++ footer (actual_lines (finish s)) (section_num s - 1)
    /\ (forall a g : Z,
          full_doc (finish s) = joined_doc s ++ footer a g ->
          a = lines (joined_doc s))
    /\ actual_lines (finish s) = lines (joined_doc s)
    /\ final_lines (finish s) = actual_lines (finish s) + 13.
Proof.
  destruct (loop_result entropy target) as (s & k & Hw & Hg & _).
  exists s. split; [exact Hw|]. split; [exact Hg|]. split; [reflexivity|].
  split; [intros a g H; now apply finish_figures in H|].
  split; [reflexivity|apply finish_final_lines].
Qed.

(** C4 as stated fails on the script's own run: the figure is the section
    counter minus one, which is two more than the number of sections the
    loop appended (the template's sections 1 and 2 are counted). *)
Lemma footer_sections_counts_template :
  exists s : loop_state,
    while zero_draws target_line_count (Z.to_nat target_line_count) init_state
    = Some s
    /\ forall a g : Z,
         full_doc (finish s) = joined_doc s ++ footer a g ->
         g <> len (generated s).
Proof.
  destruct (loop_result zero_draws target_line_count) as (s & k & Hw & _ & Hs & _).
  exists s. split; [exact Hw|]. intros a g H.
  apply finish_figures in H as (_ & ->).
  subst s. rewrite run_section_num, generated_run_length. lia.
Qed.

(** C4, amended: the section figure of the footer is the number of sections
    appended by the loop plus 2, that is the number of the last section of
    the document; a run that generates no section prints 2. *)
Theorem footer_sections_is_last_number (entropy : nat -> nat) (target : Z) :
  exists s : loop_state,
    while entropy target (Z.to_nat target) init_state = Some s
    /\ generate entropy target = Some (finish s)
    /\ full_doc (finish s)
       = joined_doc s ++ footer (actual_lines (finish s)) (len (generated s) + 2)
    /\ (forall a g : Z,
          full_doc (finish s) = joined_doc s ++ footer a g ->
          g = len (generated s) + 2)
    /\ len (generated s) + 2 = section_num s - 1.
Proof.
  destruct (loop_result entropy target) as (s & k & Hw & Hg & Hs & _).
  assert (E : section_num s - 1 = len (generated s) + 2).
  { subst s. rewrite run_section_num, generated_run_length. lia. }
  exists s. split; [exact Hw|]. split; [exact Hg|].
  split; [rewrite <- E; reflexivity|].
  split; [|now rewrite E].
  intros a g H. apply finish_figures in H as (_ & ->). exact E.
Qed.

(** * Section numbers and the shape of a section *)

Section Shape.

Variable entropy : nat -> nat.

Lemma built_section_eq (n : Z) (r : nat) :
  built_section entropy n r = section_of entropy n r.
Proof. unfold built_section. now rewrite build_section_eq. Qed.

Lemma pass_section_built (s : loop_state) :
  pass_section entropy s = built_section entropy (section_num s) (rng s).
Proof. reflexivity. Qed.

(** The generated blocks of a run, pass by pass. *)
Lemma generated_run (k : nat) :
  generated (run entropy k)
  = map (fun j => join nls (pass_section entropy (run entropy j))) (seq 0 k).
Proof.
  induction k as [|k IH]; [reflexivity|].
  rewrite generated_step, IH, seq_S, map_app. reflexivity.
Qed.

Lemma existsb_paragraphs (f : string -> bool) (n : Z) (r : nat) :
  f EmptyString = false ->
  (forall p, f (paragraph n p) = false) ->
  existsb f (paragraphs_part entropy n r) = false.
Proof.
  intros He Hp. unfold paragraphs_part.
  generalize (Z.to_nat (randint_val entropy 2 4 r)). generalize 0.
  intros i k. revert i.
  induction k as [|k IH]; intro i; [reflexivity|].
  cbn [zrange flat_map app existsb]. now rewrite Hp, He, IH.
Qed.

Lemma existsb_items (f : string -> bool) (r : nat) :
  (forall i, f (list_item i) = false) ->
  existsb f (items_part entropy r) = false.
Proof.
  intros Hi. unfold items_part.
  generalize (zrange 0 (Z.to_nat (randint_val entropy 3 6 r))).
  induction l as [|i l IH]; [reflexivity|].
  cbn [map existsb]. now rewrite Hi, IH.
Qed.

(** In what comes before the conditional blocks and in what comes after
    them, no list element starts a fence, a table row, a quote or a task. *)
Lemma existsb_front (f : string -> bool) (n : Z) (r : nat) :
  In f [is_fence; is_table_row; is_quote; is_task] ->
  existsb f ([heading n; EmptyString] ++ paragraphs_part entropy n r
             ++ ["### List Items"; EmptyString] ++ items_part entropy (S r)
             ++ [EmptyString])%list = false.
Proof.
  intros Hf. rewrite !existsb_app.
  rewrite existsb_paragraphs, existsb_items;
    cbn [In] in Hf;
    destruct Hf as [<-|[<-|[<-|[<-|[]]]]]; intros; reflexivity.
Qed.

Lemma existsb_closing (f : string -> bool) (n : Z) :
  In f [is_fence; is_table_row; is_quote; is_task] ->
  existsb f (closing_part n) = false.
Proof.
  intros Hf. cbn [In] in Hf.
  destruct Hf as [<-|[<-|[<-|[<-|[]]]]]; reflexivity.
Qed.

End Shape.

Section Markers.

Variable entropy : nat -> nat.

(** Which markers each conditional block carries. *)
Lemma existsb_code_part (n : Z) (r : nat) :
  existsb is_fence (code_part entropy n r) = (n mod 3 =? 0)%Z
  /\ existsb is_table_row (code_part entropy n r) = false
  /\ existsb is_quote (code_part entropy n r) = false
  /\ existsb is_task (code_part entropy n r) = false.
Proof.
  pose proof (code_choice_facts entropy r) as (_ & _ & H1 & H2 & H3 & H4).
  unfold code_part. destruct (n mod 3 =? 0)%Z; [|auto].
  cbn [existsb]. rewrite H1, H2, H3, H4. auto.
Qed.

Lemma existsb_table_part (n : Z) (r : nat) :
  existsb is_table_row (table_part entropy n r) = (n mod 4 =? 0)%Z
  /\ existsb is_fence (table_part entropy n r) = false
  /\ existsb is_quote (table_part entropy n r) = false
  /\ existsb is_task (table_part entropy n r) = false.
Proof.
  pose proof (table_choice_facts entropy r) as (_ & _ & H1 & H2 & H3 & H4).
  unfold table_part. destruct (n mod 4 =? 0)%Z; [|auto].
  cbn [existsb]. rewrite H1, H2, H3, H4. auto.
Qed.

Lemma existsb_quote_part (n : Z) :
  existsb is_quote (quote_part n) = (n mod 5 =? 0)%Z
  /\ existsb is_fence (quote_part n) = false
  /\ existsb is_table_row (quote_part n) = false
  /\ existsb is_task (quote_part n) = false.
Proof. unfold quote_part. destruct (n mod 5 =? 0)%Z; auto. Qed.

Lemma existsb_task_part (n : Z) :
  existsb is_task (task_part n) = (n mod 6 =? 0)%Z
  /\ existsb is_fence (task_part n) = false
  /\ existsb is_table_row (task_part n) = false
  /\ existsb is_quote (task_part n) = false.
Proof. unfold task_part. destruct (n mod 6 =? 0)%Z; auto. Qed.

(** A section is a front part, the four conditional blocks in the order of
    the script, and the closing part. *)
Lemma section_of_split (n : Z) (r : nat) :
  section_of entropy n r
  = (([heading n; EmptyString] ++ paragraphs_part entropy n r
      ++ ["### List Items"; EmptyString] ++ items_part entropy (S r)
      ++ [EmptyString])
     ++ code_part entropy n (S (S r))
     ++ table_part entropy n (code_draws n + S (S r))
     ++ quote_part n ++ task_part n ++ closing_part n)%list.
Proof. unfold section_of. now repeat rewrite <- app_assoc. Qed.

Lemma existsb_app6 (f : string -> bool) (a b c d e g : list string) :
  existsb f (a ++ b ++ c ++ d ++ e ++ g)
  = existsb f a || existsb f b || existsb f c || existsb f d || existsb f e
    || existsb f g.
Proof. rewrite !existsb_app, !orb_assoc. reflexivity. Qed.

Lemma section_of_markers (n : Z) (r : nat) :
  existsb is_fence (section_of entropy n r) = (n mod 3 =? 0)%Z
  /\ existsb is_table_row (section_of entropy n r) = (n mod 4 =? 0)%Z
  /\ existsb is_quote (section_of entropy n r) = (n mod 5 =? 0)%Z
  /\ existsb is_task (section_of entropy n r) = (n mod 6 =? 0)%Z.
Proof.
  rewrite section_of_split, !existsb_app6.
  pose proof (existsb_code_part n (S (S r))) as (C1 & C2 & C3 & C4).
  pose proof (existsb_table_part n (code_draws n + S (S r))) as (T1 & T2 & T3 & T4).
  pose proof (existsb_quote_part n) as (Q1 & Q2 & Q3 & Q4).
  pose proof (existsb_task_part n) as (K1 & K2 & K3 & K4).
  rewrite !existsb_front, !existsb_closing by (cbn [In]; auto).
  rewrite C1, C2, C3, C4, T1, T2, T3, T4, Q1, Q2, Q3, Q4, K1, K2, K3, K4.
  cbn [orb]. rewrite !orb_false_r. auto.
Qed.

Lemma code_samples_distinct : NoDup code_samples.
Proof.
  unfold code_samples.
  repeat constructor; cbn [In]; intuition discriminate.
Qed.

Lemma table_samples_distinct : NoDup table_samples.
Proof.
  unfold table_samples.
  repeat constructor; cbn [In]; intuition discriminate.
Qed.

End Markers.

(** C5: the section counter starts at 3 and every pass adds 1 to it; the
    generated blocks of a run are the texts of its passes in order; and the
    section built by pass number [S k] carries the number [2 + S k] in its
    heading, in the link of each of its 2 to 4 paragraphs, and in its closing
    subsection heading. *)
Theorem section_numbers_count_from_three (entropy : nat -> nat) (k : nat) :
  section_num (run entropy 0) = 3
  /\ section_num (run entropy (S k)) = section_num (run entropy k) + 1
  /\ section_num (run entropy k) = 2 + Z.of_nat (S k)
  /\ generated (run entropy k)
     = map (fun j => join nls (pass_section entropy (run entropy j))) (seq 0 k)
  /\ exists (count : Z) (middle : list string),
       2 <= count <= 4
       /\ pass_section entropy (run entropy k)
          = ([ ("## Section " ++ str (2 + Z.of_nat (S k))
                ++ ": Generated Content Block")%string; EmptyString ]
             ++ flat_map
                  (fun p =>
                     [ ("Paragraph " ++ str (p + 1) ++ " with **bold text**, *italic*, `inline code`, and [links](https://example.com/" ++ str (2 + Z.of_nat (S k)) ++ "). This is filler content to test rendering performance with realistic markdown documents.")%string;
                       EmptyString ])
                  (zrange 0 (Z.to_nat count))
             ++ middle
             ++ [ ("#### Subsection " ++ str (2 + Z.of_nat (S k)) ++ ".1")%string;
                  EmptyString;
                  ("Content for subsection " ++ str (2 + Z.of_nat (S k))
                   ++ ".1 with more **formatting** and details.")%string;
                  EmptyString; "---"; EmptyString ])%list.
Proof.
  assert (E : section_num (run entropy k) = 2 + Z.of_nat (S k))
    by (rewrite run_section_num; lia).
  split; [reflexivity|]. split; [rewrite !run_section_num; lia|].
  split; [exact E|]. split; [apply generated_run|].
  exists (randint_val entropy 2 4 (rng (run entropy k))).
  exists (["### List Items"; EmptyString]
          ++ items_part entropy (S (rng (run entropy k)))
          ++ [EmptyString]
          ++ code_part entropy (section_num (run entropy k))
                       (S (S (rng (run entropy k))))
          ++ table_part entropy (section_num (run entropy k))
                        (code_draws (section_num (run entropy k))
                         + S (S (rng (run entropy k))))
          ++ quote_part (section_num (run entropy k))
          ++ task_part (section_num (run entropy k)))%list.
  split; [apply randint_val_range; lia|].
  rewrite pass_section_eq. rewrite <- E. unfold section_of.
  repeat rewrite <- app_assoc. reflexivity.
Qed.

(** C6: among the list elements of a generated section, one opens a code
    fence exactly when the section number is divisible by 3, one is a table
    exactly when it is divisible by 4, one is a quote line exactly when it is
    divisible by 5, one is a task item exactly when it is divisible by 6.  The
    blocks come in that order between a front part and a closing part that
    hold none of these.  The code sample is the element of the four distinct
    code samples picked by the draw, the table that of the two distinct table
    samples, and every sample is picked by some draw. *)
Theorem conditional_blocks (entropy : nat -> nat) (n : Z) (r : nat) :
  existsb is_fence (built_section entropy n r) = (n mod 3 =? 0)%Z
  /\ existsb is_table_row (built_section entropy n r) = (n mod 4 =? 0)%Z
  /\ existsb is_quote (built_section entropy n r) = (n mod 5 =? 0)%Z
  /\ existsb is_task (built_section entropy n r) = (n mod 6 =? 0)%Z
  /\ (exists front : list string,
        built_section entropy n r
        = (front
           ++ (if (n mod 3 =? 0)%Z
               then ["### Code Example"; EmptyString;
                     nth (entropy (S (S r)) mod 4)%nat code_samples EmptyString;
                     EmptyString]
               else [])
           ++ (if (n mod 4 =? 0)%Z
               then ["### Data Table"; EmptyString;
                     nth (entropy (code_draws n + S (S r))%nat mod 2)%nat
                         table_samples EmptyString;
                     EmptyString]
               else [])
           ++ (if (n mod 5 =? 0)%Z
               then ["> This is a blockquote with important information.";
                     "> It spans multiple lines for testing purposes.";
                     EmptyString]
               else [])
           ++ (if (n mod 6 =? 0)%Z
               then ["### Tasks"; EmptyString; "- [ ] Unchecked task item";
                     "- [x] Checked task item"; "- [ ] Another unchecked task";
                     EmptyString]
               else [])
           ++ closing_part n)%list
        /\ existsb (fun x => is_fence x || is_table_row x || is_quote x
                             || is_task x) (front ++ closing_part n) = false)
  /\ List.length code_samples = 4%nat /\ NoDup code_samples
  /\ List.length table_samples = 2%nat /\ NoDup table_samples
  /\ map (fun i => choice_val (fun _ => i) code_samples r) (seq 0 4)
     = code_samples
  /\ map (fun i => choice_val (fun _ => i) table_samples r) (seq 0 2)
     = table_samples.
Proof.
  rewrite built_section_eq.
  pose proof (section_of_markers entropy n r) as (M1 & M2 & M3 & M4).
  repeat (split; [assumption|]).
  split.
  { eexists. split; [apply section_of_split|].
    rewrite existsb_app.
    assert (F : forall l : list string,
               existsb is_fence l = false -> existsb is_table_row l = false ->
               existsb is_quote l = false -> existsb is_task l = false ->
               existsb (fun x => is_fence x || is_table_row x || is_quote x
                                 || is_task x) l = false).
    { induction l as [|x l IH]; [reflexivity|]. cbn [existsb]. intros A B C D.
      apply orb_false_iff in A as [A1 A2], B as [B1 B2], C as [C1 C2], D as [D1 D2].
      rewrite A1, B1, C1, D1. cbn [orb]. now apply IH. }
    rewrite !F; try reflexivity;
      first [apply existsb_front | apply existsb_closing]; cbn [In]; auto. }
  split; [reflexivity|]. split; [apply code_samples_distinct|].
  split; [reflexivity|]. split; [apply table_samples_distinct|].
  split; reflexivity.
Qed.

(** * A bound the template already meets *)

Section Skip.

Variable entropy : nat -> nat.

Lemma lines_template : lines template = 88.
Proof. vm_compute. reflexivity. Qed.

Lemma line_count_init : line_count init_state = lines template.
Proof. unfold init_state, lines. cbn [line_count]. reflexivity. Qed.

Lemma joined_doc_init : joined_doc init_state = template.
Proof. unfold joined_doc, init_state. cbn [sections join]. reflexivity. Qed.

Lemma while_init_skips (target : Z) (fuel : nat) :
  target <= lines template ->
  while entropy target fuel init_state = Some init_state.
Proof.
  intros H. destruct fuel; cbn [while]; rewrite line_count_init;
    destruct (Z.ltb_spec (lines template) target); try lia; reflexivity.
Qed.

End Skip.

(** The run with bound 100 and every raw draw zero, in figures: one
    generated section of 22 list elements and 33 lines, a footer that reports
    121 lines and 3 sections, and a written text of 134 lines. *)
Example threshold_100_report :
  len (built_section zero_draws 3 0) = 22
  /\ lines (join nls (built_section zero_draws 3 0)) = 33
  /\ option_map (fun r => (actual_lines r, final_lines r))
                (generate zero_draws 100) = Some (121, 134)
  /\ section_num (run zero_draws 1) - 1 = 3.
Proof. vm_compute. auto. Qed.

(** C7 as stated fails at the spec's own example: the template has 88 lines,
    which is below 100, so with the bound 100 the loop body runs; with every
    raw draw zero it runs once and appends section 3. *)
Lemma threshold_100_runs_the_loop :
  lines template = 88
  /\ while zero_draws 100 (Z.to_nat 100) init_state = Some (run zero_draws 1)
  /\ len (generated (run zero_draws 1)) = 1
  /\ full_doc (finish (run zero_draws 1)) <> template ++ footer 88 2.
Proof.
  split; [exact lines_template|].
  split; [vm_compute; reflexivity|].
  split; [vm_compute; reflexivity|].
  intros E. apply (f_equal String.length) in E. vm_compute in E. discriminate.
Qed.

(** C7, amended: the template has 88 lines; whenever the bound is at most
    that, the loop body never runs, no section is generated, and the written
    text is the template followed by the footer, which reports 88 lines and
    2 sections.  The bound 100 is not such a case. *)
Theorem loop_skipped_when_template_suffices
        (entropy : nat -> nat) (target : Z) (fuel : nat) :
  target <= lines template ->
  lines template = 88
  /\ while entropy target fuel init_state = Some init_state
  /\ generate entropy target = Some (finish init_state)
  /\ generated init_state = []
  /\ full_doc (finish init_state) = template ++ footer 88 2.
Proof.
  intros H. split; [exact lines_template|].
  split; [now apply while_init_skips|].
  split; [unfold generate, generate_with; now rewrite while_init_skips|].
  split; [reflexivity|].
  rewrite finish_full_doc, joined_doc_init, lines_template. reflexivity.
Qed.

Lemma loop_skipped_when_template_suffices_witness :
  88 <= lines template
  /\ (lines template = 88
      /\ while zero_draws 88 0 init_state = Some init_state
      /\ generate zero_draws 88 = Some (finish init_state)
      /\ generated init_state = []
      /\ full_doc (finish init_state) = template ++ footer 88 2).
Proof.
  assert (H : 88 <= lines template) by (vm_compute; discriminate).
  split; [exact H|].
  exact (loop_skipped_when_template_suffices zero_draws 88 0 H).
Defined.

(** * Runs with the same draws *)

Section SameDraws.

Variables e1 e2 : nat -> nat.

Lemma pass_draws_length (e : nat -> nat) (n : Z) (r : nat) :
  List.length (pass_draws e n r) = draws_used n.
Proof.
  unfold pass_draws, draws_used, table_draws, code_draws.
  destruct (n mod 3 =? 0)%Z, (n mod 4 =? 0)%Z; reflexivity.
Qed.

(** The section of a pass is a function of the values its calls return. *)
Lemma pass_draws_section (n : Z) (r : nat) :
  pass_draws e1 n r = pass_draws e2 n r ->
  section_of e1 n r = section_of e2 n r.
Proof.
  unfold pass_draws, section_of, paragraphs_part, items_part, code_part,
    table_part.
  generalize (randint_val e1 2 4 r), (randint_val e2 2 4 r),
    (randint_val e1 3 6 (S r)), (randint_val e2 3 6 (S r)),
    (choice_val e1 code_samples (S (S r))),
    (choice_val e2 code_samples (S (S r))),
    (choice_val e1 table_samples (code_draws n + S (S r))),
    (choice_val e2 table_samples (code_draws n + S (S r))).
  intros p1 p2 i1 i2 c1 c2 t1 t2.
  destruct (n mod 3 =? 0)%Z, (n mod 4 =? 0)%Z; cbn [app]; intros H;
    inversion H; subst; reflexivity.
Qed.

(** Conversely the list a pass builds tells what its calls returned: the
    paragraphs end where the list heading starts, the items end at the first
    empty element, and the samples are elements of the list. *)
Lemma paragraphs_cut (n : Z) (k1 k2 : nat) (t1 t2 : list string) :
  forall i,
    (flat_map (fun p => [paragraph n p; EmptyString]) (zrange i k1)
     ++ "### List Items" :: t1
     = flat_map (fun p => [paragraph n p; EmptyString]) (zrange i k2)
       ++ "### List Items" :: t2)%list ->
    k1 = k2 /\ t1 = t2.
Proof.
  revert k2. induction k1 as [|k1 IH]; intros [|k2] i H;
    cbn [zrange flat_map app] in H.
  - injection H as H. auto.
  - exfalso. remember (str (i + 1)) as x. remember (str n) as y.
    unfold paragraph in H. rewrite <- Heqx, <- Heqy in H. discriminate H.
  - exfalso. remember (str (i + 1)) as x. remember (str n) as y.
    unfold paragraph in H. rewrite <- Heqx, <- Heqy in H. discriminate H.
  - remember (paragraph n i) as x. injection H as H.
    destruct (IH k2 (i + 1) H) as (-> & ->). auto.
Qed.

Lemma items_cut (k1 k2 : nat) (t1 t2 : list string) :
  forall i,
    (map list_item (zrange i k1) ++ EmptyString :: t1
     = map list_item (zrange i k2) ++ EmptyString :: t2)%list ->
    k1 = k2 /\ t1 = t2.
Proof.
  revert k2. induction k1 as [|k1 IH]; intros [|k2] i H;
    cbn [zrange map app] in H.
  - injection H as H. auto.
  - exfalso. remember (str (i + 1)) as x.
    unfold list_item in H. rewrite <- Heqx in H. discriminate H.
  - exfalso. remember (str (i + 1)) as x.
    unfold list_item in H. rewrite <- Heqx in H. discriminate H.
  - remember (list_item i) as x. injection H as H.
    destruct (IH k2 (i + 1) H) as (-> & ->). auto.
Qed.

Lemma section_pass_draws (n : Z) (r : nat) :
  section_of e1 n r = section_of e2 n r ->
  pass_draws e1 n r = pass_draws e2 n r.
Proof.
  unfold section_of, pass_draws, paragraphs_part, items_part, code_part,
    table_part.
  pose proof (randint_val_range e1 2 4 r ltac:(lia)) as P1.
  pose proof (randint_val_range e2 2 4 r ltac:(lia)) as P2.
  pose proof (randint_val_range e1 3 6 (S r) ltac:(lia)) as I1.
  pose proof (randint_val_range e2 3 6 (S r) ltac:(lia)) as I2.
  revert P1 P2 I1 I2.
  generalize (randint_val e1 2 4 r), (randint_val e2 2 4 r),
    (randint_val e1 3 6 (S r)), (randint_val e2 3 6 (S r)),
    (choice_val e1 code_samples (S (S r))),
    (choice_val e2 code_samples (S (S r))),
    (choice_val e1 table_samples (code_draws n + S (S r))),
    (choice_val e2 table_samples (code_draws n + S (S r))).
  intros p1 p2 i1 i2 c1 c2 t1 t2 P1 P2 I1 I2 H.
  remember (heading n) as h. cbn [app] in H. injection H as H.
  apply paragraphs_cut in H as (Hp & H).
  assert (p1 = p2) by lia. subst p2. clear Hp.
  injection H as H. apply items_cut in H as (Hi & H).
  assert (i1 = i2) by lia. subst i2. clear Hi.
  remember (quote_part n ++ task_part n ++ closing_part n)%list as rest.
  destruct (n mod 3 =? 0)%Z, (n mod 4 =? 0)%Z; cbn [app] in H |- *;
    try injection H as H; try injection H as H; subst; reflexivity.
Qed.

(** Two passes build the same list exactly when their calls return the same
    values. *)
Lemma pass_draws_iff_section (n : Z) (r : nat) :
  pass_draws e1 n r = pass_draws e2 n r
  <-> built_section e1 n r = built_section e2 n r.
Proof.
  rewrite !built_section_eq. split;
    [apply pass_draws_section|apply section_pass_draws].
Qed.

Lemma app_inv_same_length {A : Type} (a b c d : list A) :
  List.length a = List.length b -> (a ++ c = b ++ d)%list -> a = b /\ c = d.
Proof.
  revert b. induction a as [|x a IH]; intros [|y b] Hl H;
    cbn [List.length app] in *; try discriminate; [auto|].
  injection H as -> H. injection Hl as Hl.
  destruct (IH b Hl H) as (-> & ->). auto.
Qed.

Lemma while_draws_none (e : nat -> nat) (target : Z) (fuel : nat) :
  forall s, while_draws e target fuel s = None -> while e target fuel s = None.
Proof.
  induction fuel as [|fuel IH]; intros s H; cbn [while while_draws] in *;
    destruct (line_count s <? target)%Z; try discriminate; [reflexivity|].
  apply IH. destruct (while_draws e target fuel (loop_body e s));
    [discriminate|reflexivity].
Qed.

Lemma loop_body_same_draws (s : loop_state) :
  pass_draws e1 (section_num s) (rng s) = pass_draws e2 (section_num s) (rng s) ->
  loop_body e1 s = loop_body e2 s.
Proof.
  intros H. rewrite !loop_body_eq, !pass_section_eq.
  now rewrite (pass_draws_section _ _ H).
Qed.

(** Loops whose calls return the same values end in the same state. *)
Lemma while_same_draws (target : Z) (fuel : nat) :
  forall s,
    while_draws e1 target fuel s = while_draws e2 target fuel s ->
    while e1 target fuel s = while e2 target fuel s.
Proof.
  induction fuel as [|fuel IH]; intros s H; cbn [while while_draws] in *;
    destruct (line_count s <? target)%Z; try reflexivity.
  destruct (while_draws e1 target fuel (loop_body e1 s)) as [l1|] eqn:E1,
           (while_draws e2 target fuel (loop_body e2 s)) as [l2|] eqn:E2;
    cbn [option_map] in H; try discriminate.
  - assert (Hl : List.length (pass_draws e1 (section_num s) (rng s))
                 = List.length (pass_draws e2 (section_num s) (rng s)))
      by now rewrite !pass_draws_length.
    remember (pass_draws e1 (section_num s) (rng s)) as d1 eqn:Ed1.
    remember (pass_draws e2 (section_num s) (rng s)) as d2 eqn:Ed2.
    injection H as H.
    apply app_inv_same_length in H as (Hd & ->); [|exact Hl].
    rewrite Ed1, Ed2 in Hd.
    pose proof (loop_body_same_draws s Hd) as Hb.
    rewrite <- Hb in E2 |- *. apply IH. now rewrite E1, E2.
  - now rewrite (while_draws_none e1 _ _ _ E1), (while_draws_none e2 _ _ _ E2).
Qed.

End SameDraws.

(** C8: two runs in which the calls of the random generator return the same
    sequence of values (the paragraph count, the list-entry count, and the
    code and table samples where they are drawn) both produce a result, and
    the same one: the same written text and the same reported figures.  Only
    the values returned by the calls that are made count; the raw draws
    behind them may differ. *)
Theorem same_draws_same_output (e1 e2 : nat -> nat) (target : Z) :
  run_draws e1 target = run_draws e2 target ->
  exists r : report,
    generate e1 target = Some r
    /\ generate e2 target = Some r.
Proof.
  intros H. unfold run_draws in H. apply while_same_draws in H.
  destruct (loop_result e1 target) as (s & k & Hw & Hg & _).
  exists (finish s). split; [exact Hg|].
  unfold generate, generate_with. now rewrite <- H, Hw.
Qed.

Lemma same_draws_same_output_witness :
  run_draws zero_draws 100 = run_draws other_draws 100
  /\ exists r : report,
       generate zero_draws 100 = Some r
       /\ generate other_draws 100 = Some r.
Proof.
  assert (H : run_draws zero_draws 100 = run_draws other_draws 100)
    by (vm_compute; reflexivity).
  split; [exact H|].
  exact (same_draws_same_output zero_draws other_draws 100 H).
Defined.

(** C9: the reported file size, the character count of the written text, is
    the length of its UTF-8 encoding, because the written text of every run
    is plain ASCII; on any text the two agree exactly when the text is plain
    ASCII. *)
Theorem file_size_is_utf8_length (entropy : nat -> nat) (target : Z) :
  (exists s : loop_state,
      while entropy target (Z.to_nat target) init_state = Some s
      /\ generate entropy target = Some (finish s)
      /\ ascii_only (full_doc (finish s)) = true
      /\ file_size (finish s) = len (utf8_encode (full_doc (finish s))))
  /\ forall text : string,
       len_str text = len (utf8_encode text) <-> ascii_only text = true.
Proof.
  split.
  - destruct (loop_result entropy target) as (s & k & Hw & Hg & Hs & _).
    exists s. split; [exact Hw|]. split; [exact Hg|].
    assert (A : ascii_only (full_doc (finish s)) = true)
      by (subst s; apply ascii_full_doc).
    split; [exact A|].
    unfold finish at 1. cbn [file_size]. fold (joined_doc s).
    rewrite <- finish_full_doc. unfold len_str, len.
    now rewrite (utf8_encode_ascii _ A).
  - intro text. rewrite <- utf8_length_iff. unfold len_str, len. split.
    + intros H. apply Nat2Z.inj in H. congruence.
    + intros H. now rewrite H.
Qed.

(** * Splitting and joining *)

Section SplitJoin.

Lemma split_nl_nonempty (s : string) : split_nl s <> [].
Proof.
  intros E. pose proof (split_nl_length s) as H. rewrite E in H. discriminate.
Qed.

(** Splitting distributes over a newline in the middle. *)
Lemma split_nl_app_nl (a b : string) :
  split_nl (a ++ String nl b) = (split_nl a ++ split_nl b)%list.
Proof.
  induction a as [|c a IH]; cbn [String.append split_nl].
  - rewrite Ascii.eqb_refl. reflexivity.
  - destruct (Ascii.eqb c nl).
    + now rewrite IH.
    + rewrite IH. pose proof (split_nl_nonempty a) as Hne.
      destruct (split_nl a) as [|h t]; [congruence|reflexivity].
Qed.

(** A text without newline is its own single line. *)
Lemma split_nl_single (x : string) : newlines x = O -> split_nl x = [x].
Proof.
  induction x as [|c x IH]; cbn [newlines split_nl]; [reflexivity|].
  destruct (Ascii.eqb c nl); [discriminate|].
  intros H. now rewrite (IH H).
Qed.

(** The lines of a joined text are the lines of its pieces, in order. *)
Lemma split_nl_join (x : string) (l : list string) :
  split_nl (join nls (x :: l)) = flat_map split_nl (x :: l).
Proof.
  revert x. induction l as [|y l IH]; intro x.
  - cbn [join flat_map]. now rewrite app_nil_r.
  - change (join nls (x :: y :: l)) with (x ++ String nl (join nls (y :: l))).
    rewrite split_nl_app_nl, IH. reflexivity.
Qed.

Lemma flat_map_split_single (l : list string) :
  Forall (fun x => newlines x = O) l -> flat_map split_nl l = l.
Proof.
  induction 1 as [|x l Hx _ IH]; cbn [flat_map]; [reflexivity|].
  now rewrite (split_nl_single x Hx), IH.
Qed.

(** [join] undoes [split_nl]. *)
Lemma join_split_nl (s : string) : join nls (split_nl s) = s.
Proof.
  induction s as [|c s IH]; cbn [split_nl]; [reflexivity|].
  pose proof (split_nl_nonempty s) as Hne.
  destruct (Ascii.eqb_spec c nl) as [->|Hc].
  - destruct (split_nl s) as [|h t]; [congruence|].
    change (join nls (EmptyString :: h :: t))
      with (String nl (join nls (h :: t))).
    now rewrite IH.
  - destruct (split_nl s) as [|h t]; [congruence|].
    rewrite <- IH. destruct t; reflexivity.
Qed.

Lemma fence_lines_app_nl (a b : string) :
  fence_lines (a ++ String nl b) = (fence_lines a + fence_lines b)%nat.
Proof.
  unfold fence_lines. now rewrite split_nl_app_nl, filter_app, length_app.
Qed.

Lemma fence_lines_join (x : string) (l : list string) :
  fence_lines (join nls (x :: l)) = sum_fence_lines (x :: l).
Proof.
  revert x. induction l as [|y l IH]; intro x.
  - cbn [join sum_fence_lines]. lia.
  - change (join nls (x :: y :: l)) with (x ++ String nl (join nls (y :: l))).
    rewrite fence_lines_app_nl, IH. reflexivity.
Qed.

Lemma sum_fence_lines_app (l1 l2 : list string) :
  sum_fence_lines (l1 ++ l2)
  = (sum_fence_lines l1 + sum_fence_lines l2)%nat.
Proof.
  induction l1 as [|x l1 IH]; cbn [app sum_fence_lines]; [reflexivity|].
  rewrite IH. lia.
Qed.

(** Single lines none of which starts a fence. *)
Lemma sum_fence_lines_none (l : list string) :
  Forall (fun x => newlines x = O) l ->
  existsb is_fence l = false ->
  sum_fence_lines l = O.
Proof.
  induction 1 as [|x l Hx _ IH]; cbn [existsb sum_fence_lines]; [reflexivity|].
  intros H. apply orb_false_iff in H as [H1 H2].
  unfold fence_lines at 1. rewrite (split_nl_single x Hx).
  cbn [filter]. rewrite H1, (IH H2). reflexivity.
Qed.

End SplitJoin.

(** * Code fences come in pairs *)

Section Fences.

Variable entropy : nat -> nat.

Lemma fence_lines_template : fence_lines template = 4%nat.
Proof. vm_compute. reflexivity. Qed.

Lemma fence_lines_code_samples :
  forallb (fun c => (fence_lines c =? 2)%nat) code_samples = true.
Proof. vm_compute. reflexivity. Qed.

Lemma fence_lines_table_samples :
  forallb (fun c => (fence_lines c =? 0)%nat) table_samples = true.
Proof. vm_compute. reflexivity. Qed.

Lemma fence_lines_code_choice (r : nat) :
  fence_lines (choice_val entropy code_samples r) = 2%nat.
Proof.
  pose proof fence_lines_code_samples as H. rewrite forallb_forall in H.
  apply Nat.eqb_eq, H, choice_val_in. discriminate.
Qed.

Lemma fence_lines_table_choice (r : nat) :
  fence_lines (choice_val entropy table_samples r) = 0%nat.
Proof.
  pose proof fence_lines_table_samples as H. rewrite forallb_forall in H.
  apply Nat.eqb_eq, H, choice_val_in. discriminate.
Qed.

Lemma front_single (n : Z) (r : nat) :
  Forall (fun x => newlines x = O)
         ([heading n; EmptyString] ++ paragraphs_part entropy n r
          ++ ["### List Items"; EmptyString] ++ items_part entropy (S r)
          ++ [EmptyString])%list.
Proof.
  repeat (apply Forall_app; split);
    auto using paragraphs_single, items_single;
    repeat constructor; apply newlines_heading.
Qed.

(** A section has two fence lines when it has a code block, none otherwise. *)
Lemma sum_fence_lines_section_of (n : Z) (r : nat) :
  sum_fence_lines (section_of entropy n r)
  = if (n mod 3 =? 0)%Z then 2%nat else 0%nat.
Proof.
  rewrite section_of_split, sum_fence_lines_app.
  rewrite (sum_fence_lines_none _ (front_single n r))
    by (apply existsb_front; cbn [In]; auto).
  rewrite !sum_fence_lines_app.
  rewrite (sum_fence_lines_none _ (closing_single n))
    by (apply existsb_closing; cbn [In]; auto).
  rewrite (sum_fence_lines_none _ (quote_single n))
    by (apply existsb_quote_part).
  rewrite (sum_fence_lines_none _ (task_single n))
    by (apply existsb_task_part).
  unfold code_part, table_part.
  destruct (n mod 3 =? 0)%Z, (n mod 4 =? 0)%Z; cbn [sum_fence_lines];
    rewrite ?fence_lines_code_choice, ?fence_lines_table_choice;
    reflexivity.
Qed.

Lemma fence_lines_pass (s : loop_state) :
  fence_lines (join nls (pass_section entropy s))
  = if (section_num s mod 3 =? 0)%Z then 2%nat else 0%nat.
Proof.
  pose proof (pass_section_nonempty entropy s) as Hne.
  rewrite <- (sum_fence_lines_section_of (section_num s) (rng s)).
  rewrite <- pass_section_eq.
  destruct (pass_section entropy s) as [|x l]; [congruence|].
  apply fence_lines_join.
Qed.

Lemma sum_fence_lines_run (k : nat) :
  sum_fence_lines (sections (run entropy k))
  = (4 + 2 * code_sections k)%nat.
Proof.
  induction k as [|k IH].
  - change (sections (run entropy 0)) with [template].
    cbn [sum_fence_lines code_sections]. rewrite fence_lines_template. lia.
  - rewrite run_S, loop_body_eq. cbn [sections].
    rewrite sum_fence_lines_app, IH. cbn [sum_fence_lines code_sections].
    rewrite fence_lines_pass, run_section_num.
    destruct ((3 + Z.of_nat k) mod 3 =? 0)%Z; lia.
Qed.

Lemma fence_lines_joined_doc (k : nat) :
  fence_lines (joined_doc (run entropy k)) = (4 + 2 * code_sections k)%nat.
Proof.
  unfold joined_doc. rewrite <- sum_fence_lines_run.
  destruct (run_sections_head entropy k) as (gen & -> & _).
  apply fence_lines_join.
Qed.

(** The footer is a newline followed by thirteen lines without a fence. *)
Lemma footer_as_lines (a g : Z) :
  footer a g
  = String nl
      (join nls [ EmptyString; "---"; EmptyString; "## Document Statistics";
                  EmptyString; "- **Total Lines**: " ++ str a;
                  "- **Generated Sections**: " ++ str g;
                  "- **Purpose**: Performance testing for VoidReader";
                  EmptyString; "---"; EmptyString; "*End of test document*";
                  EmptyString ]).
Proof.
  unfold footer, nls. cbn [join String.append]. reflexivity.
Qed.

Lemma fence_lines_footer_tail (a g : Z) :
  sum_fence_lines
    [ EmptyString; "---"; EmptyString; "## Document Statistics";
      EmptyString; "- **Total Lines**: " ++ str a;
      "- **Generated Sections**: " ++ str g;
      "- **Purpose**: Performance testing for VoidReader";
      EmptyString; "---"; EmptyString; "*End of test document*";
      EmptyString ] = O.
Proof.
  apply sum_fence_lines_none; [|reflexivity].
  repeat constructor;
    repeat rewrite newlines_app; rewrite ?newlines_str; reflexivity.
Qed.

Lemma fence_lines_full_doc (k : nat) :
  fence_lines (full_doc (finish (run entropy k)))
  = (4 + 2 * code_sections k)%nat.
Proof.
  rewrite finish_full_doc, footer_as_lines, fence_lines_app_nl.
  rewrite fence_lines_join, fence_lines_footer_tail, fence_lines_joined_doc.
  lia.
Qed.

(** ** Every fence that opens is closed *)

Lemma scan_fences_app (b : bool) (l1 l2 : list string) :
  scan_fences b (l1 ++ l2) = scan_fences (scan_fences b l1) l2.
Proof. apply fold_left_app. Qed.

(** Pieces that each end outside a code block do so together. *)
Lemma scan_fences_flat_map (l : list string) :
  Forall (fun x => fences_closed x = true) l ->
  scan_fences false (flat_map split_nl l) = false.
Proof.
  induction 1 as [|x l Hx _ IH]; cbn [flat_map]; [reflexivity|].
  rewrite scan_fences_app. unfold fences_closed in Hx.
  apply negb_true_iff in Hx. now rewrite Hx.
Qed.

Lemma fences_closed_join (x : string) (l : list string) :
  Forall (fun y => fences_closed y = true) (x :: l) ->
  fences_closed (join nls (x :: l)) = true.
Proof.
  intros H. unfold fences_closed.
  now rewrite split_nl_join, (scan_fences_flat_map _ H).
Qed.

(** Single lines none of which starts a fence. *)
Lemma fences_closed_plain (l : list string) :
  Forall (fun x => newlines x = O) l ->
  existsb is_fence l = false ->
  Forall (fun x => fences_closed x = true) l.
Proof.
  induction 1 as [|x l Hx _ IH]; cbn [existsb]; intros H; constructor.
  - apply orb_false_iff in H as [H _]. unfold fences_closed.
    rewrite (split_nl_single x Hx). cbn [scan_fences fold_left fence_step].
    now rewrite H.
  - apply IH. now apply orb_false_iff in H as [_ H].
Qed.

Lemma fences_closed_template : fences_closed template = true.
Proof. vm_compute. reflexivity. Qed.

Lemma fences_closed_samples :
  forallb fences_closed (code_samples ++ table_samples) = true.
Proof. vm_compute. reflexivity. Qed.

Lemma fences_closed_code_choice (r : nat) :
  fences_closed (choice_val entropy code_samples r) = true.
Proof.
  pose proof fences_closed_samples as H. rewrite forallb_forall in H.
  apply H, in_or_app. left. apply choice_val_in. discriminate.
Qed.

Lemma fences_closed_table_choice (r : nat) :
  fences_closed (choice_val entropy table_samples r) = true.
Proof.
  pose proof fences_closed_samples as H. rewrite forallb_forall in H.
  apply H, in_or_app. right. apply choice_val_in. discriminate.
Qed.

(** Every list element of a section ends outside a code block. *)
Lemma fences_closed_section_of (n : Z) (r : nat) :
  Forall (fun x => fences_closed x = true) (section_of entropy n r).
Proof.
  rewrite section_of_split. apply Forall_app. split.
  { apply fences_closed_plain; [apply front_single|].
    apply existsb_front. cbn [In]. auto. }
  apply Forall_app. split.
  { unfold code_part. destruct (n mod 3 =? 0)%Z; [|constructor].
    constructor; [reflexivity|]. constructor; [reflexivity|].
    constructor; [apply fences_closed_code_choice|].
    constructor; [reflexivity|constructor]. }
  apply Forall_app. split.
  { unfold table_part. destruct (n mod 4 =? 0)%Z; [|constructor].
    constructor; [reflexivity|]. constructor; [reflexivity|].
    constructor; [apply fences_closed_table_choice|].
    constructor; [reflexivity|constructor]. }
  apply Forall_app. split.
  { apply fences_closed_plain; [apply quote_single|apply existsb_quote_part]. }
  apply Forall_app. split.
  { apply fences_closed_plain; [apply task_single|apply existsb_task_part]. }
  apply fences_closed_plain; [apply closing_single|].
  apply existsb_closing. cbn [In]. auto.
Qed.

Lemma fences_closed_pass (s : loop_state) :
  fences_closed (join nls (pass_section entropy s)) = true.
Proof.
  pose proof (pass_section_nonempty entropy s) as Hne.
  pose proof (fences_closed_section_of (section_num s) (rng s)) as H.
  rewrite <- pass_section_eq in H.
  destruct (pass_section entropy s) as [|x l]; [congruence|].
  now apply fences_closed_join.
Qed.

Lemma fences_closed_sections (k : nat) :
  Forall (fun b => fences_closed b = true) (sections (run entropy k)).
Proof.
  induction k as [|k IH].
  - change (sections (run entropy 0)) with [template].
    constructor; [apply fences_closed_template|constructor].
  - rewrite run_S, loop_body_eq. cbn [sections].
    apply Forall_app. split; [exact IH|].
    constructor; [apply fences_closed_pass|constructor].
Qed.

Lemma fences_closed_footer_tail (a g : Z) :
  Forall (fun x => fences_closed x = true)
    [ EmptyString; "---"; EmptyString; "## Document Statistics";
      EmptyString; "- **Total Lines**: " ++ str a;
      "- **Generated Sections**: " ++ str g;
      "- **Purpose**: Performance testing for VoidReader";
      EmptyString; "---"; EmptyString; "*End of test document*";
      EmptyString ].
Proof.
  apply fences_closed_plain; [|reflexivity].
  repeat constructor;
    repeat rewrite newlines_app; rewrite ?newlines_str; reflexivity.
Qed.

Lemma fences_closed_full_doc (k : nat) :
  fences_closed (full_doc (finish (run entropy k))) = true.
Proof.
  unfold fences_closed.
  rewrite finish_full_doc, footer_as_lines, split_nl_app_nl, scan_fences_app.
  unfold joined_doc.
  destruct (run_sections_head entropy k) as (gen & Hs & _).
  pose proof (fences_closed_sections k) as H. rewrite Hs in H |- *.
  rewrite split_nl_join, (scan_fences_flat_map _ H).
  rewrite split_nl_join, (scan_fences_flat_map _ (fences_closed_footer_tail _ _)).
  reflexivity.
Qed.

Lemma fence_lines_generated (k : nat) :
  map fence_lines (generated (run entropy k))
  = map (fun j => if ((3 + Z.of_nat j) mod 3 =? 0)%Z then 2%nat else 0%nat)
        (seq 0 k).
Proof.
  rewrite generated_run, map_map. apply map_ext. intro j.
  now rewrite fence_lines_pass, run_section_num.
Qed.

End Fences.

(** * How far a run goes *)

Section Extent.

Variable entropy : nat -> nat.

Lemma line_count_run_bounds (k : nat) :
  88 + 18 * Z.of_nat k <= line_count (run entropy k) <= 88 + 42 * Z.of_nat k.
Proof.
  induction k as [|k IH].
  - rewrite line_count_run_0, lines_template. lia.
  - rewrite run_S, loop_body_eq. cbn [line_count].
    pose proof (pass_section_len entropy (run entropy k)). lia.
Qed.

Lemma rng_run_S (k : nat) :
  rng (run entropy (S k))
  = (draws_used (section_num (run entropy k)) + rng (run entropy k))%nat.
Proof. rewrite run_S, loop_body_eq. reflexivity. Qed.

Lemma draws_used_range (n : Z) : (2 <= draws_used n <= 4)%nat.
Proof.
  unfold draws_used, table_draws, code_draws.
  destruct (n mod 3 =? 0)%Z, (n mod 4 =? 0)%Z; lia.
Qed.

Lemma rng_run_bounds (k : nat) : (2 * k <= rng (run entropy k) <= 4 * k)%nat.
Proof.
  induction k as [|k IH].
  - change (rng (run entropy 0)) with O. lia.
  - rewrite rng_run_S.
    pose proof (draws_used_range (section_num (run entropy k))). lia.
Qed.

Lemma sections_kept (j k : nat) :
  firstn (S j) (sections (run entropy (j + k))) = sections (run entropy j).
Proof.
  induction k as [|k IH].
  - rewrite Nat.add_0_r, <- (run_sections_length entropy j). apply firstn_all.
  - rewrite Nat.add_succ_r, run_S, loop_body_eq. cbn [sections].
    rewrite firstn_app, IH, run_sections_length.
    replace (S j - S (j + k))%nat with O by lia.
    cbn [firstn]. apply app_nil_r.
Qed.

End Extent.

Lemma rng_run_same (e1 e2 : nat -> nat) (k : nat) :
  rng (run e1 k) = rng (run e2 k).
Proof.
  induction k as [|k IH]; [reflexivity|].
  now rewrite !rng_run_S, !run_section_num, IH.
Qed.

(** * Headings tell sections apart *)

Section Headings.

Lemma string_length_app (a b : string) :
  String.length (a ++ b) = (String.length a + String.length b)%nat.
Proof.
  induction a as [|c a IH]; cbn [String.append String.length]; [reflexivity|].
  now rewrite IH.
Qed.

Lemma append_inv_tail (x y t : string) : x ++ t = y ++ t -> x = y.
Proof.
  revert y. induction x as [|c x IH]; intros [|d y] H;
    cbn [String.append] in H.
  - reflexivity.
  - apply (f_equal String.length) in H. cbn [String.length] in H.
    rewrite string_length_app in H. lia.
  - apply (f_equal String.length) in H. cbn [String.length] in H.
    rewrite string_length_app in H. lia.
  - injection H as -> H. now rewrite (IH y H).
Qed.

Lemma heading_inj (n m : Z) : heading n = heading m -> n = m.
Proof.
  unfold heading. intros H.
  apply append_inv_head, append_inv_tail in H. now apply str_inj.
Qed.

(** The first line of a section text is its heading. *)
Lemma section_text_first_line (entropy : nat -> nat) (n : Z) (r : nat) :
  hd EmptyString (split_nl (join nls (section_of entropy n r))) = heading n.
Proof.
  unfold section_of. cbn [app]. rewrite split_nl_join. cbn [flat_map].
  rewrite (split_nl_single _ (newlines_heading n)). reflexivity.
Qed.

Lemma first_lines_run (entropy : nat -> nat) (k : nat) :
  map (fun t => hd EmptyString (split_nl t)) (generated (run entropy k))
  = map (fun j => heading (3 + Z.of_nat j)) (seq 0 k).
Proof.
  rewrite generated_run, map_map. apply map_ext. intro j.
  now rewrite pass_section_eq, section_text_first_line, run_section_num.
Qed.

End Headings.

(** * Further properties of the generator *)

(** X1: the number of list elements of a generated section is 11, plus two
    per paragraph (2 to 4 paragraphs), plus one per list item (3 to 6), plus
    4 for a code block, 4 for a table, 3 for a blockquote and 6 for a task
    list; it always lies between 18 and 42. *)
Theorem section_element_count (entropy : nat -> nat) (n : Z) (r : nat) :
  len (built_section entropy n r)
  = 11 + 2 * randint_val entropy 2 4 r + randint_val entropy 3 6 (S r)
    + (if (n mod 3 =? 0)%Z then 4 else 0)
    + (if (n mod 4 =? 0)%Z then 4 else 0)
    + (if (n mod 5 =? 0)%Z then 3 else 0)
    + (if (n mod 6 =? 0)%Z then 6 else 0)
  /\ 2 <= randint_val entropy 2 4 r <= 4
  /\ 3 <= randint_val entropy 3 6 (S r) <= 6
  /\ 18 <= len (built_section entropy n r) <= 42.
Proof.
  rewrite built_section_eq.
  split; [|split; [apply randint_val_range; lia|
           split; [apply randint_val_range; lia|apply section_of_len_bounds]]].
  rewrite section_of_len. unfold code_part, table_part, quote_part, task_part.
  destruct (n mod 3 =? 0)%Z, (n mod 4 =? 0)%Z, (n mod 5 =? 0)%Z, (n mod 6 =? 0)%Z;
    unfold len; cbn [List.length]; lia.
Qed.

(** X2: when the loop ends, either it made no pass (the tally is the 88
    lines of the template) or the tally is below the bound plus 42: the last
    pass started below the bound and added at most 42.  With [k] generated
    sections the tally lies between 88 + 18 k and 88 + 42 k. *)
Theorem tally_overshoot_bounded (entropy : nat -> nat) (target : Z) :
  exists s : loop_state,
    while entropy target (Z.to_nat target) init_state = Some s
    /\ target <= line_count s
    /\ ((generated s = [] /\ line_count s = 88)
        \/ line_count s < target + 42)
    /\ 88 + 18 * len (generated s) <= line_count s
    /\ line_count s <= 88 + 42 * len (generated s).
Proof.
  destruct (while_init_ends entropy target) as (s & k & Hw & Hs & Ht & Hlt).
  exists s. split; [exact Hw|]. split; [exact Ht|]. subst s.
  pose proof (line_count_run_bounds entropy k) as Hb.
  rewrite generated_run_length. split; [|lia].
  destruct k as [|k].
  - left. split; [reflexivity|lia].
  - right. specialize (Hlt k (Nat.lt_succ_diag_r k)).
    rewrite run_S, loop_body_eq. cbn [line_count].
    pose proof (pass_section_len entropy (run entropy k)). lia.
Qed.

(** X3: whatever the random draws, the script (bound 50000) generates at
    least 1189 and at most 2773 sections, so the section figure of its
    footer lies between 1191 and 2775. *)
Theorem script_section_count (entropy : nat -> nat) :
  exists s : loop_state,
    while entropy target_line_count (Z.to_nat target_line_count) init_state
    = Some s
    /\ main entropy = Some (finish s)
    /\ 1189 <= len (generated s) <= 2773
    /\ 1191 <= section_num s - 1 <= 2775.
Proof.
  destruct (while_init_ends entropy target_line_count)
    as (s & k & Hw & Hs & Ht & Hlt).
  exists s. split; [exact Hw|].
  split; [unfold main, generate, generate_with; now rewrite Hw|].
  subst s. rewrite generated_run_length, run_section_num.
  unfold target_line_count in *.
  pose proof (line_count_run_bounds entropy k) as Hb.
  destruct k as [|k]; [lia|].
  specialize (Hlt k (Nat.lt_succ_diag_r k)).
  pose proof (line_count_run_bounds entropy k) as Hb'. lia.
Qed.

(** X4: a pass consults the random generator twice for the two counts and
    once more for each sample it embeds, so between 2 and 4 times; after [k]
    passes between 2 k and 4 k draws are used, and the position reached does
    not depend on what the draws returned. *)
Theorem draws_per_pass (e1 e2 : nat -> nat) (k : nat) :
  rng (run e1 (S k))
  = (rng (run e1 k) + 2
     + (if (section_num (run e1 k) mod 3 =? 0)%Z then 1 else 0)
     + (if (section_num (run e1 k) mod 4 =? 0)%Z then 1 else 0))%nat
  /\ (2 * k <= rng (run e1 k) <= 4 * k)%nat
  /\ rng (run e1 k) = rng (run e2 k).
Proof.
  split; [|split; [apply rng_run_bounds|apply rng_run_same]].
  rewrite rng_run_S. unfold draws_used, table_draws, code_draws. lia.
Qed.

(** X5: every code fence of the written text is closed.  Reading the text
    line by line, a line that starts with three backticks outside a code
    block opens one and the next line that is exactly three backticks closes
    it; read this way the written text of every run ends outside a code
    block, and so does every block of it taken alone.  The fence lines are 4
    in the template and 2 in each generated section whose number is
    divisible by 3, none in the other sections and none in the footer. *)
Theorem code_fences_balanced (entropy : nat -> nat) (target : Z) :
  exists (s : loop_state) (k : nat),
    while entropy target (Z.to_nat target) init_state = Some s
    /\ generate entropy target = Some (finish s)
    /\ len (generated s) = Z.of_nat k
    /\ fences_closed (full_doc (finish s)) = true
    /\ Forall (fun b => fences_closed b = true) (sections s)
    /\ fence_lines template = 4%nat
    /\ map fence_lines (generated s)
       = map (fun j => if ((3 + Z.of_nat j) mod 3 =? 0)%Z then 2%nat else 0%nat)
             (seq 0 k)
    /\ fence_lines (full_doc (finish s)) = (4 + 2 * code_sections k)%nat.
Proof.
  destruct (loop_result entropy target) as (s & k & Hw & Hg & Hs & _).
  exists s, k. split; [exact Hw|]. split; [exact Hg|]. subst s.
  split; [apply generated_run_length|].
  split; [apply fences_closed_full_doc|].
  split; [apply fences_closed_sections|].
  split; [apply fence_lines_template|].
  split; [apply fence_lines_generated|apply fence_lines_full_doc].
Qed.

(** X6: appending a section leaves the earlier blocks as they were: the
    first [j + 1] blocks after [j + k] passes are the blocks after [j]
    passes, and the first block is always the template. *)
Theorem earlier_blocks_kept (entropy : nat -> nat) (j k : nat) :
  firstn (S j) (sections (run entropy (j + k))) = sections (run entropy j)
  /\ hd_error (sections (run entropy k)) = Some template.
Proof.
  split; [apply sections_kept|].
  destruct (run_sections_head entropy k) as (gen & -> & _). reflexivity.
Qed.

(** X7: the footer text determines its two figures: two footers are the
    same text exactly when they report the same line count and the same
    section count. *)
Theorem footer_determines_figures (a g a' g' : Z) :
  footer a g = footer a' g' <-> (a = a' /\ g = g').
Proof.
  split; [apply footer_inj|]. now intros (-> & ->).
Qed.

(** X8: joining the lines of any text with newlines gives the text back;
    the line count taken by the script is one more than the number of
    newline characters; and the lines of the joined document are the lines
    of its blocks, block after block. *)
Theorem join_split_round_trip (entropy : nat -> nat) (s : string) (k : nat) :
  join nls (split_nl s) = s
  /\ len (split_nl s) = 1 + Z.of_nat (newlines s)
  /\ split_nl (joined_doc (run entropy k))
     = flat_map split_nl (sections (run entropy k)).
Proof.
  split; [apply join_split_nl|]. split; [apply lines_newlines|].
  unfold joined_doc. destruct (run_sections_head entropy k) as (gen & -> & _).
  apply split_nl_join.
Qed.

(** X9: for a section that embeds no sample (its number is divisible
    neither by 3 nor by 4), splitting the section text at newlines gives
    back the list it was joined from, element by element. *)
Theorem section_split_round_trip (entropy : nat -> nat) (n : Z) (r : nat) :
  n mod 3 <> 0 -> n mod 4 <> 0 ->
  split_nl (join nls (built_section entropy n r)) = built_section entropy n r.
Proof.
  intros H3 H4. rewrite built_section_eq.
  assert (F : Forall (fun x => newlines x = O) (section_of entropy n r)).
  { rewrite section_of_split. unfold code_part, table_part.
    apply Z.eqb_neq in H3, H4. rewrite H3, H4.
    apply Forall_app. split; [apply front_single|].
    repeat (apply Forall_app; split);
      auto using quote_single, task_single, closing_single. }
  pose proof (section_of_len_bounds entropy n r) as Hb.
  destruct (section_of entropy n r) as [|x l] eqn:E.
  - unfold len in Hb. cbn [List.length] in Hb. lia.
  - rewrite split_nl_join. now apply flat_map_split_single.
Qed.

Lemma section_split_round_trip_witness :
  split_nl (join nls (built_section zero_draws 5 0))
  = built_section zero_draws 5 0.
Proof.
  apply (section_split_round_trip zero_draws 5 0); vm_compute; discriminate.
Defined.

(** X10: the first line of the [j]-th generated block (counting from 0) is
    the heading with number [3 + j], and no two generated blocks of a run
    are the same text. *)
Theorem generated_sections_distinct (entropy : nat -> nat) (k : nat) :
  map (fun t => hd EmptyString (split_nl t)) (generated (run entropy k))
  = map (fun j => "## Section " ++ str (3 + Z.of_nat j)
                  ++ ": Generated Content Block") (seq 0 k)
  /\ NoDup (generated (run entropy k)).
Proof.
  split; [apply first_lines_run|].
  apply (NoDup_map_inv (fun t => hd EmptyString (split_nl t))).
  rewrite first_lines_run.
  apply NoDup_map_NoDup_ForallPairs; [|apply seq_NoDup].
  intros i j _ _ H. apply heading_inj in H. lia.
Qed.

(** X11: what the draws return changes the content of a section, not its
    frame: in any two runs the section built by pass [k] has the same
    number, the same heading and the same closing lines, and holds a code
    block, a table, a blockquote and a task list in one run exactly when it
    does in the other. *)
Theorem frame_independent_of_draws (e1 e2 : nat -> nat) (k : nat) :
  section_num (run e1 k) = section_num (run e2 k)
  /\ map (fun f => existsb f (pass_section e1 (run e1 k)))
         [is_fence; is_table_row; is_quote; is_task]
     = map (fun f => existsb f (pass_section e2 (run e2 k)))
           [is_fence; is_table_row; is_quote; is_task]
  /\ exists (first : string) (last body1 body2 : list string),
       pass_section e1 (run e1 k) = (first :: body1 ++ last)%list
       /\ pass_section e2 (run e2 k) = (first :: body2 ++ last)%list
       /\ first = heading (3 + Z.of_nat k)
       /\ last = closing_part (3 + Z.of_nat k).
Proof.
  split; [now rewrite !run_section_num|]. split.
  - rewrite !pass_section_eq, !run_section_num. cbn [map].
    destruct (section_of_markers e1 (3 + Z.of_nat k) (rng (run e1 k)))
      as (-> & -> & -> & ->).
    destruct (section_of_markers e2 (3 + Z.of_nat k) (rng (run e2 k)))
      as (-> & -> & -> & ->).
    reflexivity.
  - rewrite !pass_section_eq, !run_section_num.
    exists (heading (3 + Z.of_nat k)), (closing_part (3 + Z.of_nat k)).
    exists (frame_body e1 (3 + Z.of_nat k) (rng (run e1 k))).
    exists (frame_body e2 (3 + Z.of_nat k) (rng (run e2 k))).
    split; [|split; [|split; reflexivity]];
      unfold section_of, frame_body; cbn [app];
      repeat (rewrite <- app_assoc; cbn [app]); reflexivity.
Qed.
